(** * CMCM-SLF: spotted-lanternfly population model, pesticide scheduler
      and profit evaluator ([slf_old.ipynb])

    Shallow embedding of the three notebook functions
    [slf_population_model], [pesticide_application_strategy] (with its helper
    [insecticide_effectiveness]) and [calculate_profit].

    Modelling conventions.
    - Python floats are idealised as exact rationals ([Qc], the canonical
      rationals, so that equality of dictionaries and rows is Leibniz
      equality).  Every concrete evaluation below uses values whose float
      computation is exact or far from a rounding boundary.
    - NumPy [int64] cells and Python [int]s are idealised as [Z]; the counts
      of the model stay far below [2^63] for any realistic egg count.
    - Missing table cells (NaN) are outside the model: every numeric column
      of the pesticide table holds a rational.
    - Python dictionaries are [gmap]s; a raised exception is a value of
      [Exn]; the state reached when an exception is raised is kept next to
      it so that it can be inspected. *)

From Stdlib Require Import ZArith QArith Qcanon Qround Lia.
From stdpp Require Import base numbers option list gmap strings.

Local Open Scope Z_scope.

(** ** Numeric helpers (Python built-ins on idealised floats) *)

(** Python's [int(x)] on a float: truncation toward zero. *)
Definition int (x : Qc) : Z := Qnum x ÷ Zpos (Qden x).

(** Python's two-argument [min] and [max]: the first argument is kept unless
    the second one is strictly smaller (resp. larger). *)
Definition Qcmin (x y : Qc) : Qc := if decide (y < x)%Qc then y else x.
Definition Qcmax (x y : Qc) : Qc := if decide (x < y)%Qc then y else x.
Definition Qcabs (x : Qc) : Qc := if decide (x < 0)%Qc then (- x)%Qc else x.

Definition Qc_frac (a : Z) (b : positive) : Qc := Q2Qc (a # b).

(** ** Population dynamics model *)

Record SlfCounts : Type := mkSlfCounts {
  days : list Z;
  nymph_count : list Z;
  adult_count : list Z
}.

Definition optimal_precipitation : Qc := Qc_of_Z 5.
Definition growth_rate : Qc := Qc_frac 1 100.

Definition temp_factor (t : Qc) : Qc :=
  Qcmax 0%Qc (Qcmin 1%Qc ((t - Qc_of_Z 10) / Qc_of_Z 15)%Qc).

Definition precip_factor (p : Qc) : Qc :=
  (1 - Qcmin 1%Qc (Qcabs (p - optimal_precipitation) / Qc_of_Z 10))%Qc.

(** The value [int(nymph_count[i-1] * growth_rate * temp_factor * precip_factor)]. *)
Definition growth (prev_nymph : Z) (t p : Qc) : Z :=
  int (Qc_of_Z prev_nymph * growth_rate * temp_factor t * precip_factor p)%Qc.

(** One iteration of the loop body: the cells [nymph_count[i]] and
    [adult_count[i]] written on [day], from the cells at [i-1].  A cell that
    a branch does not write keeps the [0] of [np.zeros_like]. *)
Definition day_update (initial_eggs day : Z) (t p : Qc) (prev : Z * Z) : Z * Z :=
  let '(prev_nymph, prev_adult) := prev in
  if decide (day = 1) then (initial_eggs, 0)
  else if decide (day < 60) then (prev_nymph + growth prev_nymph t p, 0)
  else if decide (60 <= day < 120) then
    let adult_growth := growth prev_nymph t p in
    (prev_nymph - adult_growth, prev_adult + adult_growth)
  else (0, prev_adult + prev_nymph).

(** The [for i, day in enumerate(days)] loop.  [temperature[i]] and
    [precipitation[i]] raise [IndexError] (here [None]) when a list is too
    short.  At [i = 0] the index [i-1] wraps to the last cell, which still
    holds [0]; the loop is therefore started with [prev = (0, 0)]. *)
Fixpoint model_loop (initial_eggs : Z) (n : nat) (day : Z)
    (temperature precipitation : list Qc) (prev : Z * Z) : option (list (Z * Z)) :=
  match n with
  | O => Some []
  | S n' =>
      match temperature, precipitation with
      | t :: ts, p :: ps =>
          let cur := day_update initial_eggs day t p prev in
          rest ← model_loop initial_eggs n' (day + 1) ts ps cur;
          Some (cur :: rest)
      | _, _ => None
      end
  end.

(** [np.arange(start_day, end_day + 1)]. *)
Definition arange (start stop : Z) : list Z :=
  (λ i : nat, start + Z.of_nat i) <$> seq 0 (Z.to_nat (stop - start)).

Definition slf_population_model (temperature precipitation : list Qc)
    (initial_eggs start_day end_day : Z) : option SlfCounts :=
  let days := arange start_day (end_day + 1) in
  cells ← model_loop initial_eggs (length days) start_day temperature precipitation (0, 0);
  Some (mkSlfCounts days (fst <$> cells) (snd <$> cells)).

(** Default arguments of the [def]. *)
Definition default_initial_eggs : Z := 10.
Definition default_start_day : Z := 1.
Definition default_end_day : Z := 183.



(** Scenario A of the specification: 183 days at temperature 25 and
    precipitation 5. *)
Definition scenario_A_temperature : list Qc := replicate 183 (Qc_of_Z 25).
Definition scenario_A_precipitation : list Qc := replicate 183 (Qc_of_Z 5).

(** The arrays computed for scenario A with 1000 initial eggs. *)
Definition scenario_A_counts : SlfCounts :=
  Eval vm_compute in
    default (mkSlfCounts [] [] [])
      (slf_population_model scenario_A_temperature scenario_A_precipitation 1000 1 183).

(** ** Pesticide reference table ([df], read from pesticides.csv)

    One record per table row, in table order.  [EffectOnAdults] and
    [EffectOnNymphs] are the columns 'Effect on Adults' and 'Effect on Nymphs'
    after [efficacy_mapping]; [PHI] is 'PHI (days)'; [SeasonalMax] and
    [MaxApplications] are 'Seasonal Max' and 'Max Applications' after
    [pd.to_numeric]. *)

Record Pesticide : Type := mkPesticide {
  Product : string;
  Class : string;
  EffectOnAdults : Qc;
  EffectOnNymphs : Qc;
  PHI : Qc;
  SeasonalMax : Qc;
  MaxApplications : Qc
}.

(** The frame returned by [insecticide_effectiveness]. *)
Record Effectiveness : Type := mkEffectiveness {
  eff_Product : string;
  Effect_on_Nymphs : Qc;
  Effect_on_Adults : Qc;
  Available_in : Qc;
  Available_until_Harvest : Qc
}.

(** [insecticide_effectiveness(df, day, nymph_population, adult_population)].
    The function also stores the four computed columns in [df] itself; the
    scheduler never reads those columns from [df], so only the returned frame
    is modelled. *)
Definition insecticide_effectiveness (df : list Pesticide) (day : Z)
    (nymph_population adult_population : Z) : list Effectiveness :=
  (λ p, mkEffectiveness (Product p)
          (EffectOnNymphs p * Qc_of_Z nymph_population)%Qc
          (EffectOnAdults p * Qc_of_Z adult_population)%Qc
          (Qcmax 0%Qc (PHI p - Qc_of_Z day)%Qc)
          (Qcmax 0%Qc (PHI p - Qc_of_Z day)%Qc)) <$> df.

(** [frame.loc[frame['Product'] == name, col].iloc[0]]: the cell of the first
    row carrying the product name; [None] stands for the [IndexError] of
    [.iloc[0]] on an empty selection. *)
Definition loc_first {A B : Type} (name_of : A → string) (col : A → B)
    (name : string) (frame : list A) : option B :=
  col <$> head (filter (λ r, name_of r = name) frame).

(** ** Exceptions *)

Inductive Exn : Type :=
  | IndexError
  | ValueError_length
  | ValueError_SeasonalMax (chosen_pesticide : string)
  | ValueError_NoSuitable (day : Z)
  | KeyError (key : string)
  | ValueError_ambiguous.

Inductive result (A : Type) : Type :=
  | Ok (a : A)
  | Raise (e : Exn).
Arguments Ok {A} a.
Arguments Raise {A} e.

(** ** Application schedule rows *)

Record ScheduleRow : Type := mkScheduleRow {
  row_day : Z;
  row_temperature : Qc;
  row_precipitation : Qc;
  row_nymph_count : Z;
  row_adult_count : Z;
  row_pesticide : option string;
  row_application_rate : Qc
}.

Definition row_set_pesticide (r : ScheduleRow) (name : string) : ScheduleRow :=
  mkScheduleRow (row_day r) (row_temperature r) (row_precipitation r)
    (row_nymph_count r) (row_adult_count r) (Some name) (row_application_rate r).

Definition row_set_application_rate (r : ScheduleRow) (rate : Qc) : ScheduleRow :=
  mkScheduleRow (row_day r) (row_temperature r) (row_precipitation r)
    (row_nymph_count r) (row_adult_count r) (row_pesticide r) rate.

(** ** Usage ledger: the three dictionaries of the scheduler *)

(** A value of [last_use_day]: [-np.inf] or a day. *)
Inductive LastUse : Type := NegInf | OnDay (d : Z).

Global Instance LastUse_inhabited : Inhabited LastUse := populate NegInf.
Global Instance Qc_inhabited : Inhabited Qc := populate 0%Qc.

Record Ledger : Type := mkLedger {
  last_use_day : gmap string LastUse;
  seasonal_usage : gmap string Qc;
  seasonal_use_count : gmap string Z
}.

(** The dictionary comprehensions that initialise the ledger.  Every class
    and product of [df] is a key, so the subscripts of the loop never raise
    [KeyError]; they are modelled by the total lookup [!!!]. *)
Definition initial_ledger (df : list Pesticide) : Ledger :=
  mkLedger (list_to_map ((λ p, (Class p, NegInf)) <$> df))
           (list_to_map ((λ p, (Product p, 0%Qc)) <$> df))
           (list_to_map ((λ p, (Product p, 0)) <$> df)).

(** [row['day'] - last_use_day[cls] > phi]; the difference is [+inf] for a
    class never used. *)
Definition time_since_last_use_gt (day : Z) (last : LastUse) (phi : Qc) : bool :=
  match last with
  | NegInf => true
  | OnDay d => bool_decide (phi < Qc_of_Z (day - d))%Qc
  end.

(** ** Application scheduler *)

(** [15*0.06] and [5*0.06].  The float product [15*0.06] is
    [0.8999999999999999]; the thresholds are only compared with integer
    counts, for which the exact and the float comparison agree. *)
Definition nymph_threshold_per_squarefeet : Qc := (Qc_of_Z 15 * Qc_frac 6 100)%Qc.
Definition adult_threshold_per_squarefeet : Qc := (Qc_of_Z 5 * Qc_frac 6 100)%Qc.
Definition high_efficacy : Qc := Qc_frac 3 4.
Definition base_rate : Qc := Qc_frac 64 10.

Definition is_autumn_on (day : Z) : bool := negb (bool_decide (day <= 92)).

(** The condition of the outer [if] of the day loop. *)
Definition treatment_required (is_autumn : bool) (row : ScheduleRow) : bool :=
  (negb is_autumn
     && bool_decide (nymph_threshold_per_squarefeet <= Qc_of_Z (row_nymph_count row))%Qc)
  || (is_autumn
     && bool_decide (adult_threshold_per_squarefeet <= Qc_of_Z (row_adult_count row))%Qc).

(** The condition of the [if] inside the product loop, with Python's
    precedence: [and] binds tighter than [or], so the expression reads
    [A or (B and c2 and c3 and c4)]. *)
Definition passes_gate (is_autumn : bool) (day : Z) (L : Ledger) (p : Pesticide) : bool :=
  (is_autumn && bool_decide (high_efficacy <= EffectOnAdults p)%Qc)
  || ((negb is_autumn && bool_decide (high_efficacy <= EffectOnNymphs p)%Qc)
      && time_since_last_use_gt day (last_use_day L !!! Class p) (PHI p)
      && bool_decide (seasonal_usage L !!! Product p < SeasonalMax p)%Qc
      && bool_decide (Qc_of_Z (seasonal_use_count L !!! Product p) < MaxApplications p)%Qc).

(** [row['day'] <= harvest_day - pesticide['PHI (days)']]. *)
Definition before_harvest_window (day harvest_day : Z) (p : Pesticide) : bool :=
  bool_decide (Qc_of_Z day <= Qc_of_Z harvest_day - PHI p)%Qc.

(** The three ledger updates of a successful application. *)
Definition record_application (L : Ledger) (p : Pesticide) (day : Z)
    (application_rate : Qc) : Ledger :=
  let chosen_pesticide := Product p in
  mkLedger
    (<[Class p := OnDay day]> (last_use_day L))
    (<[chosen_pesticide := (seasonal_usage L !!! chosen_pesticide + application_rate)%Qc]>
       (seasonal_usage L))
    (<[chosen_pesticide := seasonal_use_count L !!! chosen_pesticide + 1]>
       (seasonal_use_count L)).

(** How the product loop of one day ends. *)
Inductive ScanEnd : Type :=
  | Exhausted            (* the loop ran out of products: [pesticide_applied] is False *)
  | Applied              (* [break] after a successful application *)
  | Raised (e : Exn).

(** The statements under [if row['day'] <= harvest_day - PHI]: the dose,
    the writes to the schedule row and to the ledger, and the seasonal-cap
    check that follows them.  [row] already carries the chosen name. *)
Definition apply_product (df : list Pesticide) (is_autumn : bool)
    (row : ScheduleRow) (L : Ledger) (pesticide : Pesticide) : ScheduleRow * Ledger * ScanEnd :=
  let chosen_pesticide := Product pesticide in
  let effectiveness_df :=
    insecticide_effectiveness df (row_day row) (row_nymph_count row) (row_adult_count row) in
  match loc_first eff_Product
          (if is_autumn then Effect_on_Adults else Effect_on_Nymphs)
          chosen_pesticide effectiveness_df with
  | None => (row, L, Raised IndexError)
  | Some efficacy =>
      let application_rate := (base_rate * efficacy)%Qc in
      let row := row_set_application_rate row application_rate in
      let L := record_application L pesticide (row_day row) application_rate in
      match loc_first Product SeasonalMax chosen_pesticide df with
      | None => (row, L, Raised IndexError)
      | Some seasonal_max =>
          if bool_decide (seasonal_max < seasonal_usage L !!! chosen_pesticide)%Qc
          then (row, L, Raised (ValueError_SeasonalMax chosen_pesticide))
          else (row, L, Applied)
      end
  end.

(** The [for i, pesticide in df.iterrows()] loop over the remaining
    [candidates], threading the schedule row of the day and the ledger.  The
    name of a product that passes the gate is written to the row before the
    harvest-window test. *)
Fixpoint scan_products (df : list Pesticide) (harvest_day : Z) (is_autumn : bool)
    (candidates : list Pesticide) (row : ScheduleRow) (L : Ledger)
    : ScheduleRow * Ledger * ScanEnd :=
  match candidates with
  | [] => (row, L, Exhausted)
  | pesticide :: rest =>
      if passes_gate is_autumn (row_day row) L pesticide then
        let row := row_set_pesticide row (Product pesticide) in
        if before_harvest_window (row_day row) harvest_day pesticide
        then apply_product df is_autumn row L pesticide
        else scan_products df harvest_day is_autumn rest row L
      else scan_products df harvest_day is_autumn rest row L
  end.

(** The body of the day loop for one schedule row. *)
Definition process_day (df : list Pesticide) (harvest_day : Z)
    (row : ScheduleRow) (L : Ledger) : ScheduleRow * Ledger * option Exn :=
  let is_autumn := is_autumn_on (row_day row) in
  if treatment_required is_autumn row then
    match scan_products df harvest_day is_autumn df row L with
    | (row', L', Applied) => (row', L', None)
    | (row', L', Exhausted) => (row', L', Some (ValueError_NoSuitable (row_day row)))
    | (row', L', Raised e) => (row', L', Some e)
    end
  else (row, L, None).

(** The [for index, row in application_schedule.iterrows()] loop.  When an
    exception is raised the rows and the ledger are returned as they stand
    at that moment. *)
Fixpoint run_days (df : list Pesticide) (harvest_day : Z)
    (rows : list ScheduleRow) (L : Ledger) : list ScheduleRow * Ledger * option Exn :=
  match rows with
  | [] => ([], L, None)
  | row :: rest =>
      match process_day df harvest_day row L with
      | (row', L', Some e) => (row' :: rest, L', Some e)
      | (row', L', None) =>
          let '(rest', L'', e) := run_days df harvest_day rest L' in
          (row' :: rest', L'', e)
      end
  end.

(** The rows of the initial [application_schedule] frame. *)
Fixpoint initial_rows (day : Z) (temperature precipitation : list Qc)
    (nymphs adults : list Z) : list ScheduleRow :=
  match temperature, precipitation, nymphs, adults with
  | t :: ts, p :: ps, n :: ns, a :: as_ =>
      mkScheduleRow day t p n a None 0%Qc :: initial_rows (day + 1) ts ps ns as_
  | _, _, _, _ => []
  end.

(** [df['PHI (days)'].max()]; [None] is the NaN of an empty column. *)
Definition max_PHI (df : list Pesticide) : option Qc :=
  match df with
  | [] => None
  | p :: rest => Some (foldl (λ m q, Qcmax m (PHI q)) (PHI p) rest)
  end.

(** The final filter [application_schedule['day'] <= harvest_day - max PHI];
    a comparison with NaN is False on every row. *)
Definition filter_actionable (df : list Pesticide) (harvest_day : Z)
    (rows : list ScheduleRow) : list ScheduleRow :=
  match max_PHI df with
  | None => []
  | Some m => filter (λ r, (Qc_of_Z (row_day r) <= Qc_of_Z harvest_day - m)%Qc) rows
  end.

(** The function up to the end of the day loop, keeping the local state. *)
Definition strategy_loop (temperature precipitation : list Qc) (harvest_day : Z)
    (df : list Pesticide) : result (list ScheduleRow * Ledger * option Exn) :=
  let season_length := length temperature in
  match slf_population_model temperature precipitation
          default_initial_eggs default_start_day default_end_day with
  | None => Raise IndexError
  | Some slf_proportion =>
      (* pd.DataFrame: all columns must have the same length *)
      if bool_decide (length precipitation = season_length
                      ∧ length (nymph_count slf_proportion) = season_length
                      ∧ length (adult_count slf_proportion) = season_length)
      then
        let application_schedule :=
          initial_rows 1 temperature precipitation
            (nymph_count slf_proportion) (adult_count slf_proportion) in
        Ok (run_days df harvest_day application_schedule (initial_ledger df))
      else Raise ValueError_length
  end.

Definition pesticide_application_strategy (temperature precipitation : list Qc)
    (harvest_day : Z) (df : list Pesticide) : result (list ScheduleRow) :=
  match strategy_loop temperature precipitation harvest_day df with
  | Raise e => Raise e
  | Ok (_, _, Some e) => Raise e
  | Ok (application_schedule, _, None) =>
      Ok (filter_actionable df harvest_day application_schedule)
  end.

(** ** Outcome evaluator *)

(** The frame handed to [calculate_profit]: schedule rows under the default
    index [0 .. len-1], and the column 'harvest_day' when the frame has one
    (the scheduler's output has none). *)
Record Frame : Type := mkFrame {
  rows : list ScheduleRow;
  harvest_day_column : option (list Qc)
}.

(** Truth value of the 'pesticide' cell: [None] and the empty string are
    falsy. *)
Definition truthy (cell : option string) : bool :=
  match cell with
  | None => false
  | Some name => negb (bool_decide (name = EmptyString))
  end.

Record Totals : Type := mkTotals {
  total_pesticide_cost : Qc;
  total_mold_impact : Qc;
  total_harvest_penalty : Qc
}.

(** One iteration of [for i in range(season_length)].  In the last [if],
    [df.loc[i, 'application_rate'] > 0] is evaluated first; when it holds,
    [i > df['harvest_day']] subscripts the frame by column: [KeyError] if
    there is no such column, otherwise a boolean Series whose truth value
    raises [ValueError].  The statement under that [if] is therefore never
    reached. *)
Definition profit_step (df : Frame) (pesticide_cost pesticide_area mold_growth_rate : Qc)
    (row : ScheduleRow) (acc : Totals) : result Totals :=
  let cost :=
    if truthy (row_pesticide row)
    then (total_pesticide_cost acc + pesticide_cost * pesticide_area)%Qc
    else total_pesticide_cost acc in
  let mold :=
    (total_mold_impact acc
     + mold_growth_rate * (Qc_of_Z (row_nymph_count row) + Qc_of_Z (row_adult_count row)))%Qc in
  if bool_decide (0 < row_application_rate row)%Qc then
    match harvest_day_column df with
    | None => Raise (KeyError "harvest_day")
    | Some _ => Raise ValueError_ambiguous
    end
  else Ok (mkTotals cost mold (total_harvest_penalty acc)).

Fixpoint profit_loop (df : Frame) (pesticide_cost pesticide_area mold_growth_rate : Qc)
    (todo : list ScheduleRow) (acc : Totals) : result Totals :=
  match todo with
  | [] => Ok acc
  | row :: rest =>
      match profit_step df pesticide_cost pesticide_area mold_growth_rate row acc with
      | Raise e => Raise e
      | Ok acc' => profit_loop df pesticide_cost pesticide_area mold_growth_rate rest acc'
      end
  end.

Definition calculate_profit (vineyard_length depth : Qc) (df : Frame)
    (pesticide_cost base_yield price_per_grape mold_growth_rate harvest_penalty_rate : Qc)
    : result Qc :=
  let pesticide_area := (vineyard_length * Qc_of_Z 4 * depth)%Qc in
  match profit_loop df pesticide_cost pesticide_area mold_growth_rate (rows df)
          (mkTotals 0%Qc 0%Qc 0%Qc) with
  | Raise e => Raise e
  | Ok tot =>
      let remaining_yield :=
        Qcmax 0%Qc (base_yield - total_mold_impact tot - total_harvest_penalty tot)%Qc in
      Ok (remaining_yield * price_per_grape - total_pesticide_cost tot)%Qc
  end.

(** ** Vocabulary of the specification *)

(** Efficacy rating and population count of the life stage that matters in
    the season: immature in summer, mature in autumn. *)
Definition relevant_rating (is_autumn : bool) (p : Pesticide) : Qc :=
  if is_autumn then EffectOnAdults p else EffectOnNymphs p.
Definition relevant_count (is_autumn : bool) (row : ScheduleRow) : Z :=
  if is_autumn then row_adult_count row else row_nymph_count row.

(** The dose the scheduler computes for product [p] on the day of [row]. *)
Definition dose (is_autumn : bool) (row : ScheduleRow) (p : Pesticide) : Qc :=
  (base_rate * (relevant_rating is_autumn p * Qc_of_Z (relevant_count is_autumn row)))%Qc.

(** A product that the product loop applies: it passes the gate and the
    harvest-window test. *)
Definition qualifies (is_autumn : bool) (day harvest_day : Z) (L : Ledger)
    (p : Pesticide) : bool :=
  passes_gate is_autumn day L p && before_harvest_window day harvest_day p.

(** The five conditions a product meets when it is applied on a summer day:
    high efficacy on the immature stage; more days since the last use of its
    class than its pre-harvest interval; cumulative volume so far strictly
    below the seasonal maximum; application count below the maximum; day not
    after harvest day minus pre-harvest interval. *)
Definition summer_compliant (day harvest_day : Z) (L : Ledger) (p : Pesticide) : Prop :=
  (Qc_frac 3 4 <= EffectOnNymphs p)%Qc
  ∧ match last_use_day L !!! Class p with
    | NegInf => True
    | OnDay d => (PHI p < Qc_of_Z (day - d))%Qc
    end
  ∧ (seasonal_usage L !!! Product p < SeasonalMax p)%Qc
  ∧ (Qc_of_Z (seasonal_use_count L !!! Product p) < MaxApplications p)%Qc
  ∧ (Qc_of_Z day <= Qc_of_Z harvest_day - PHI p)%Qc.

(** Two schedule rows that differ at most in the 'pesticide' cell. *)
Definition same_but_pesticide (r r' : ScheduleRow) : Prop :=
  r' = r ∨ ∃ name, r' = row_set_pesticide r name.

(** ** Sample tables

    One-product tables used in the concrete evaluations: a product of
    class "Pyrethroid" rated 1 on both stages, with pre-harvest interval 0. *)
Definition brigade (seasonal_max max_applications : Z) : Pesticide :=
  mkPesticide "Brigade" "Pyrethroid" 1%Qc 1%Qc 0%Qc
    (Qc_of_Z seasonal_max) (Qc_of_Z max_applications).

(** A product whose pre-harvest interval of 200 days exceeds the season. *)
Definition late_product : Pesticide :=
  mkPesticide "Danitol" "Pyrethroid" 1%Qc 1%Qc (Qc_of_Z 200) (Qc_of_Z 10000) (Qc_of_Z 200).

(** A product with a pre-harvest interval of 11 days. *)
Definition danitol : Pesticide :=
  mkPesticide "Danitol" "Pyrethroid" 1%Qc 1%Qc (Qc_of_Z 11) (Qc_of_Z 10000) (Qc_of_Z 200).

(** The sums of the profit formula of the specification. *)
Definition mold_impact (mold_growth_rate : Qc) (rows : list ScheduleRow) : Qc :=
  foldl (λ acc r, (acc + mold_growth_rate
                         * (Qc_of_Z (row_nymph_count r) + Qc_of_Z (row_adult_count r)))%Qc)
        0%Qc rows.
Definition pesticide_cost_total (pesticide_cost pesticide_area : Qc) (rows : list ScheduleRow) : Qc :=
  foldl (λ acc r, if truthy (row_pesticide r)
                  then (acc + pesticide_cost * pesticide_area)%Qc else acc)
        0%Qc rows.

(** ** Vocabulary of the further properties *)

(** The row that a lookup by product name reads: the first table row
    carrying the name. *)
Definition first_row_named (name : string) (df : list Pesticide) : option Pesticide :=
  head (filter (λ q, Product q = name) df).

(** Every class and product of the table is a key of the ledger. *)
Definition ledger_covers (df : list Pesticide) (L : Ledger) : Prop :=
  ∀ p, p ∈ df →
    is_Some (last_use_day L !! Class p)
    ∧ is_Some (seasonal_usage L !! Product p)
    ∧ is_Some (seasonal_use_count L !! Product p).

(** Volume and number of the applications of a product that a schedule
    records. *)
Definition applied_volume (name : string) (rows : list ScheduleRow) : Qc :=
  foldr (λ r acc, if decide (row_pesticide r = Some name)
                  then (row_application_rate r + acc)%Qc else acc) 0%Qc rows.
Definition applied_count (name : string) (rows : list ScheduleRow) : Z :=
  Z.of_nat (length (filter (λ r, row_pesticide r = Some name) rows)).

(** Total insect count over the rows, and number of rows with a non-empty
    'pesticide' cell. *)
Definition population_sum (rows : list ScheduleRow) : Z :=
  foldr (λ r acc, row_nymph_count r + row_adult_count r + acc) 0 rows.
Definition named_rows (rows : list ScheduleRow) : Z :=
  Z.of_nat (length (filter (λ r, truthy (row_pesticide r) = true) rows)).

(** The columns of a schedule row that the scheduler only reads. *)
Definition Row_inputs (r : ScheduleRow) : Z * Qc * Qc * Z * Z :=
  (row_day r, row_temperature r, row_precipitation r, row_nymph_count r, row_adult_count r).

(** A second table row carrying the name "Brigade", rated 0.75. *)
Definition brigade_weak : Pesticide :=
  mkPesticide "Brigade" "Pyrethroid" (Qc_frac 3 4) (Qc_frac 3 4) 0%Qc
    (Qc_of_Z 10000) (Qc_of_Z 200).

(** ** Facts about the numeric helpers *)

Lemma Qc_of_Z_this (n : Z) : this (Qc_of_Z n) = inject_Z n.
Proof. reflexivity. Qed.

Lemma Qcle_0_num (x : Qc) : (0 <= x)%Qc ↔ 0 <= Qnum x.
Proof. unfold Qcle, Qle; simpl. lia. Qed.



Lemma int_small (x : Qc) : (0 <= x)%Qc → (x < 1)%Qc → int x = 0.
Proof.
  intros H0%Qcle_0_num H1. unfold Qclt, Qlt in H1; simpl in H1.
  unfold int. apply Z.quot_small. lia.
Qed.

Lemma Qcmin_le_l (x y : Qc) : (Qcmin x y <= x)%Qc.
Proof.
  unfold Qcmin. case_decide; [by apply Qclt_le_weak | apply Qcle_refl].
Qed.

Lemma Qcmax_ge_l (x y : Qc) : (x <= Qcmax x y)%Qc.
Proof.
  unfold Qcmax. case_decide; [by apply Qclt_le_weak | apply Qcle_refl].
Qed.

Lemma Qcmax_le (x y z : Qc) : (x <= z)%Qc → (y <= z)%Qc → (Qcmax x y <= z)%Qc.
Proof. unfold Qcmax. by case_decide. Qed.

Lemma Qcmin_ge (x y z : Qc) : (z <= x)%Qc → (z <= y)%Qc → (z <= Qcmin x y)%Qc.
Proof. unfold Qcmin. by case_decide. Qed.

Lemma Qcabs_nonneg (x : Qc) : (0 <= Qcabs x)%Qc.
Proof.
  unfold Qcabs. case_decide as H.
  - apply Qclt_le_weak in H. apply Qcopp_le_compat in H. exact H.
  - by apply Qcnot_lt_le.
Qed.

Lemma temp_factor_range (t : Qc) : (0 <= temp_factor t <= 1)%Qc.
Proof.
  unfold temp_factor. split; [apply Qcmax_ge_l|].
  apply Qcmax_le; [done | apply Qcmin_le_l].
Qed.

Lemma precip_factor_range (p : Qc) : (0 <= precip_factor p <= 1)%Qc.
Proof.
  unfold precip_factor.
  set (m := Qcmin 1%Qc (Qcabs (p - optimal_precipitation) / Qc_of_Z 10)%Qc).
  assert (Hm1 : (m <= 1)%Qc) by apply Qcmin_le_l.
  assert (Hm0 : (0 <= m)%Qc).
  { apply Qcmin_ge; [done|].
    apply Qcmult_nonneg_nonneg; [apply Qcabs_nonneg | done]. }
  split.
  - apply Qcle_minus_iff in Hm1. exact Hm1.
  - apply Qcle_minus_iff.
    replace (1 + - (1 - m))%Qc with m by ring. exact Hm0.
Qed.

Lemma Qc_of_Z_nonneg (n : Z) : 0 <= n → (0 <= Qc_of_Z n)%Qc.
Proof. intros Hn. unfold Qcle, Qle; simpl. lia. Qed.

Lemma Qcmult_fraction (a f : Qc) :
  (0 <= a)%Qc → (0 <= f <= 1)%Qc → (0 <= a * f <= a)%Qc.
Proof.
  intros Ha [Hf0 Hf1]. split.
  - by apply Qcmult_nonneg_nonneg.
  - rewrite <- (Qcmult_1_r a) at 2. by apply Qcmult_le_mono_nonneg_l.
Qed.

(** ** The population model: loop lemmas *)

Section PopulationLoop.
Variable initial_eggs : Z.


Lemma growth_small (n : Z) (t p : Qc) : 0 <= n < 100 → growth n t p = 0.
Proof.
  intros Hn. unfold growth.
  assert (H0 : (0 <= Qc_of_Z n)%Qc) by (apply Qc_of_Z_nonneg; lia).
  assert (H1 : (0 <= Qc_of_Z n * growth_rate)%Qc)
    by (by apply Qcmult_nonneg_nonneg).
  destruct (Qcmult_fraction _ _ H1 (temp_factor_range t)) as [H2 H2'].
  destruct (Qcmult_fraction _ _ H2 (precip_factor_range p)) as [H3 H3'].
  apply int_small; [done|].
  eapply Qcle_lt_trans; [exact H3'|]. eapply Qcle_lt_trans; [exact H2'|].
  apply (Qcmult_lt_mono_pos_r _ _ (Qc_of_Z 100)); [done|].
  rewrite <- Qcmult_assoc.
  replace (growth_rate * Qc_of_Z 100)%Qc with 1%Qc by (by apply Qc_is_canon).
  rewrite Qcmult_1_r, Qcmult_1_l.
  unfold Qclt, Qlt; simpl. lia.
Qed.

Lemma model_loop_length n day ts ps prev l :
  model_loop initial_eggs n day ts ps prev = Some l → length l = n.
Proof.
  revert day ts ps prev l.
  induction n as [|n IH]; intros day ts ps prev l; simpl.
  - by intros [= <-].
  - destruct ts as [|t ts], ps as [|p ps]; try done.
    destruct (model_loop _ n _ _ _ _) as [rest|] eqn:E; simpl; [|done].
    intros [= <-]. simpl. f_equal. eauto.
Qed.

Lemma model_loop_total n day (ts ps : list Qc) prev :
  (n <= length ts)%nat → (n <= length ps)%nat →
  is_Some (model_loop initial_eggs n day ts ps prev).
Proof.
  revert day ts ps prev.
  induction n as [|n IH]; intros day ts ps prev Ht Hp; simpl; [by eexists|].
  destruct ts as [|t ts]; simpl in Ht; [lia|].
  destruct ps as [|p ps]; simpl in Hp; [lia|].
  destruct (IH (day + 1) ts ps (day_update initial_eggs day t p prev))
    as [rest ->]; [lia..|].
  by eexists.
Qed.

(** The first cell is computed from the wrapped-around cell [(0, 0)]; every
    later cell from the cell before it and the weather of its own day. *)
Lemma model_loop_head n day ts ps prev l x :
  model_loop initial_eggs n day ts ps prev = Some l →
  l !! 0%nat = Some x →
  ∃ t p, ts !! 0%nat = Some t ∧ ps !! 0%nat = Some p
         ∧ x = day_update initial_eggs day t p prev.
Proof.
  destruct n as [|n]; simpl; [by intros [= <-]|].
  destruct ts as [|t ts], ps as [|p ps]; try done.
  destruct (model_loop _ n _ _ _ _) as [rest|]; simpl; [|done].
  intros [= <-] [= <-]. by exists t, p.
Qed.

Lemma model_loop_step n day ts ps prev l (i : nat) x y :
  model_loop initial_eggs n day ts ps prev = Some l →
  l !! i = Some x → l !! S i = Some y →
  ∃ t p, ts !! S i = Some t ∧ ps !! S i = Some p
         ∧ y = day_update initial_eggs (day + Z.of_nat (S i)) t p x.
Proof.
  revert n day ts ps prev l.
  induction i as [|i IH]; intros n day ts ps prev l Hl Hx Hy.
  - destruct n as [|n]; simpl in Hl; [by inversion Hl; subst|].
    destruct ts as [|t ts], ps as [|p ps]; try done.
    destruct (model_loop _ n _ _ _ _) as [rest|] eqn:E; simpl in Hl; [|done].
    inversion Hl; subst l. simpl in Hx, Hy. inversion Hx; subst x.
    destruct (model_loop_head _ _ _ _ _ _ _ E Hy) as (t' & p' & ? & ? & ->).
    exists t', p'. by rewrite Z.add_1_r.
  - destruct n as [|n]; simpl in Hl; [by inversion Hl; subst|].
    destruct ts as [|t ts], ps as [|p ps]; try done.
    destruct (model_loop _ n _ _ _ _) as [rest|] eqn:E; simpl in Hl; [|done].
    inversion Hl; subst l. simpl in Hx, Hy.
    destruct (IH _ _ _ _ _ _ E Hx Hy) as (t' & p' & ? & ? & ->).
    exists t', p'. split_and!; [done..|]. f_equal. lia.
Qed.

End PopulationLoop.

Lemma length_arange (start stop : Z) : length (arange start stop) = Z.to_nat (stop - start).
Proof. unfold arange. by rewrite length_fmap, length_seq. Qed.

Lemma lookup_arange (start stop : Z) (i : nat) (d : Z) :
  arange start stop !! i = Some d → d = start + Z.of_nat i.
Proof.
  unfold arange. rewrite list_lookup_fmap.
  destruct (seq 0 _ !! i) as [j|] eqn:E; simpl; [|done].
  apply lookup_seq in E as [-> _]. by intros [= <-].
Qed.

(** The three arrays of the result, in terms of the loop. *)
Lemma slf_population_model_cells ts ps initial_eggs start_day end_day r :
  slf_population_model ts ps initial_eggs start_day end_day = Some r →
  ∃ cells,
    model_loop initial_eggs (Z.to_nat (end_day + 1 - start_day)) start_day ts ps (0, 0)
      = Some cells
    ∧ days r = arange start_day (end_day + 1)
    ∧ nymph_count r = fst <$> cells
    ∧ adult_count r = snd <$> cells.
Proof.
  unfold slf_population_model. rewrite length_arange.
  destruct (model_loop _ _ _ _ _ _) as [cells|]; simpl; [|done].
  intros [= <-]. by exists cells.
Qed.

Lemma lookup_cells (cells : list (Z * Z)) (i : nat) (n a : Z) :
  (fst <$> cells) !! i = Some n → (snd <$> cells) !! i = Some a →
  cells !! i = Some (n, a).
Proof.
  rewrite !list_lookup_fmap.
  destruct (cells !! i) as [[n' a']|]; simpl; [|done].
  by intros [= ->] [= ->].
Qed.


Lemma day_update_early initial_eggs d t p n a :
  2 <= d <= 59 → day_update initial_eggs d t p (n, a) = (n + growth n t p, 0).
Proof. intros Hd. unfold day_update. repeat case_decide; done || lia. Qed.

Lemma day_update_transition initial_eggs d t p n a :
  60 <= d < 120 →
  day_update initial_eggs d t p (n, a) = (n - growth n t p, a + growth n t p).
Proof. intros Hd. unfold day_update. repeat case_decide; done || lia. Qed.

Lemma day_update_late initial_eggs d t p n a :
  120 <= d → day_update initial_eggs d t p (n, a) = (0, a + n).
Proof. intros Hd. unfold day_update. repeat case_decide; done || lia. Qed.



(** ** Population model: early phase *)




(** ** Population model: late phase *)

Lemma slf_late_phase_nymph_zero ts ps initial_eggs start_day end_day r (i : nat) (d : Z) :
  slf_population_model ts ps initial_eggs start_day end_day = Some r →
  days r !! i = Some d → 120 <= d → nymph_count r !! i = Some 0.
Proof.
  intros Hr Hday Hd.
  destruct (slf_population_model_cells _ _ _ _ _ _ Hr) as (cells & Hloop & Hdays & Hn & _).
  rewrite Hdays in Hday.
  pose proof (lookup_lt_Some _ _ _ Hday) as Hlt. rewrite length_arange in Hlt.
  apply lookup_arange in Hday.
  pose proof (model_loop_length _ _ _ _ _ _ _ Hloop) as Hlen.
  destruct (lookup_lt_is_Some_2 cells i) as [y Hy]; [lia|].
  rewrite Hn, list_lookup_fmap, Hy. simpl. f_equal.
  destruct i as [|i].
  - destruct (model_loop_head _ _ _ _ _ _ _ _ Hloop Hy) as (t & p & _ & _ & ->).
    rewrite day_update_late; [done|lia].
  - destruct (lookup_lt_is_Some_2 cells i) as [[n a] Hx]; [lia|].
    destruct (model_loop_step _ _ _ _ _ _ _ _ _ _ Hloop Hx Hy) as (t & p & _ & _ & ->).
    rewrite day_update_late; [done|lia].
Qed.

(** ** Population model: invariants *)



(** ** Population model: conservation from day 60 on *)

(** C10.  From day 60 on each day's total equals the previous day's total
    (the transition phase moves a cohort, the late phase moves the whole
    remaining immature count); hence, for a range starting on day 1 and
    reaching day 120, the final mature count is the total population of day
    59, which is the immature count of that day. *)
Theorem C10_total_conserved_from_day_60
    (temperature precipitation : list Qc) (initial_eggs start_day end_day : Z)
    (r : SlfCounts) :
  slf_population_model temperature precipitation initial_eggs start_day end_day = Some r →
  (∀ i d n a n' a',
     days r !! S i = Some d → 60 <= d →
     nymph_count r !! i = Some n → adult_count r !! i = Some a →
     nymph_count r !! S i = Some n' → adult_count r !! S i = Some a' →
     n' + a' = n + a)
  ∧ (start_day = 1 → 120 <= end_day →
     ∃ n59,
       nymph_count r !! 58%nat = Some n59
       ∧ adult_count r !! 58%nat = Some 0
       ∧ last (nymph_count r) = Some 0
       ∧ last (adult_count r) = Some n59).
Proof.
  intros Hr.
  destruct (slf_population_model_cells _ _ _ _ _ _ Hr) as (cells & Hloop & Hdays & Hn & Ha).
  pose proof (model_loop_length _ _ _ _ _ _ _ Hloop) as Hlen.
  assert (Hcons : ∀ i x y, cells !! i = Some x → cells !! S i = Some y →
                    60 <= start_day + Z.of_nat (S i) → fst y + snd y = fst x + snd x).
  { intros i [n a] y Hx Hy Hd.
    destruct (model_loop_step _ _ _ _ _ _ _ _ _ _ Hloop Hx Hy) as (t & p & _ & _ & ->).
    destruct (decide (start_day + Z.of_nat (S i) < 120)).
    - rewrite day_update_transition by lia. simpl. lia.
    - rewrite day_update_late by lia. simpl. lia. }
  split.
  - intros i d n a n' a' Hday Hd Hni Hai Hni' Hai'.
    rewrite Hdays in Hday. apply lookup_arange in Hday. subst d.
    rewrite Hn in Hni, Hni'. rewrite Ha in Hai, Hai'.
    pose proof (lookup_cells _ _ _ _ Hni Hai) as Hx.
    pose proof (lookup_cells _ _ _ _ Hni' Hai') as Hy.
    by specialize (Hcons _ _ _ Hx Hy Hd).
  - intros -> Hend.
    assert (Hlen' : length cells = Z.to_nat end_day) by (rewrite Hlen; f_equal; lia).
    destruct (lookup_lt_is_Some_2 cells 57) as [[n58 a58] H57]; [lia|].
    destruct (lookup_lt_is_Some_2 cells 58) as [y59 H58]; [lia|].
    destruct (model_loop_step _ _ _ _ _ _ _ _ _ _ Hloop H57 H58) as (t & p & _ & _ & E).
    rewrite day_update_early in E by lia.
    set (n59 := n58 + growth n58 t p) in E. subst y59.
    assert (Htot : ∀ k y, cells !! (58 + k)%nat = Some y → fst y + snd y = n59).
    { induction k as [|k IH]; intros y Hy.
      - rewrite Nat.add_0_r, H58 in Hy. inversion Hy; subst y. simpl. lia.
      - replace (58 + S k)%nat with (S (58 + k)) in Hy by lia.
        destruct (lookup_lt_is_Some_2 cells (58 + k)) as [x Hx].
        { apply lookup_lt_Some in Hy. lia. }
        rewrite (Hcons _ _ _ Hx Hy) by lia. by apply IH. }
    exists n59. rewrite Hn, Ha, !fmap_last, !list_lookup_fmap, H58. simpl.
    split_and!; [done..| |].
    + rewrite last_lookup, Hlen'.
      destruct (lookup_lt_is_Some_2 cells (Nat.pred (Z.to_nat end_day))) as [y Hy]; [lia|].
      rewrite Hy. simpl. f_equal.
      destruct (Z.to_nat end_day) as [|m] eqn:Em; [lia|]. simpl in Hy.
      destruct m as [|m]; [lia|].
      destruct (lookup_lt_is_Some_2 cells m) as [[n a] Hx]; [lia|].
      destruct (model_loop_step _ _ _ _ _ _ _ _ _ _ Hloop Hx Hy) as (t' & p' & _ & _ & ->).
      rewrite day_update_late by lia. done.
    + rewrite last_lookup, Hlen'.
      destruct (lookup_lt_is_Some_2 cells (Nat.pred (Z.to_nat end_day))) as [y Hy]; [lia|].
      rewrite Hy. simpl. f_equal.
      pose proof (Htot (Nat.pred (Z.to_nat end_day) - 58)%nat y) as Ht.
      replace (58 + (Nat.pred (Z.to_nat end_day) - 58))%nat
        with (Nat.pred (Z.to_nat end_day)) in Ht by lia.
      specialize (Ht Hy).
      destruct (Z.to_nat end_day) as [|m] eqn:Em; [lia|]. simpl in Hy.
      destruct m as [|m]; [lia|].
      destruct (lookup_lt_is_Some_2 cells m) as [[n a] Hx]; [lia|].
      destruct (model_loop_step _ _ _ _ _ _ _ _ _ _ Hloop Hx Hy) as (t' & p' & _ & _ & E').
      rewrite day_update_late in E' by lia. subst y. simpl in *. lia.
Qed.

Lemma scenario_A_counts_eq :
  slf_population_model scenario_A_temperature scenario_A_precipitation 1000 1 183
  = Some scenario_A_counts.
Proof. vm_compute. reflexivity. Qed.

Lemma C10_total_conserved_from_day_60_witness :
  (∀ i d n a n' a',
     days scenario_A_counts !! S i = Some d → 60 <= d →
     nymph_count scenario_A_counts !! i = Some n →
     adult_count scenario_A_counts !! i = Some a →
     nymph_count scenario_A_counts !! S i = Some n' →
     adult_count scenario_A_counts !! S i = Some a' →
     n' + a' = n + a)
  ∧ (1 = 1 → 120 <= 183 →
     ∃ n59,
       nymph_count scenario_A_counts !! 58%nat = Some n59
       ∧ adult_count scenario_A_counts !! 58%nat = Some 0
       ∧ last (nymph_count scenario_A_counts) = Some 0
       ∧ last (adult_count scenario_A_counts) = Some n59).
Proof.
  apply (C10_total_conserved_from_day_60
           scenario_A_temperature scenario_A_precipitation 1000 1 183 scenario_A_counts).
  vm_compute. reflexivity.
Defined.

(** ** Population model: scenario A *)

(** C6 (as stated, refuted).  In scenario A the mature count of day 183 is
    1743 while the immature count of day 1 is 1000: the difference, 743,
    exceeds what rounding can explain (less than one individual on each of
    the 183 days). *)
Lemma C6_counterexample_final_mature_count :
  ∃ r, slf_population_model scenario_A_temperature scenario_A_precipitation 1000 1 183 = Some r
       ∧ nymph_count r !! 0%nat = Some 1000
       ∧ adult_count r !! 182%nat = Some 1743
       ∧ ¬ (Z.abs (1743 - 1000) <= 183).
Proof.
  exists scenario_A_counts. split; [apply scenario_A_counts_eq|].
  split_and!; [done | done | lia].
Qed.

(** C6 (amended).  In scenario A the immature count rises on each of the
    days 2..59, is 0 on day 120 and on every later day, and the mature count
    of day 183 equals the immature count of day 59 (1743), which is the whole
    population of that day. *)
Theorem C6_scenario_A_profile :
  ∃ r, slf_population_model scenario_A_temperature scenario_A_precipitation 1000 1 183 = Some r
       ∧ (∀ i n n', (1 <= S i < 59)%nat →
            nymph_count r !! i = Some n → nymph_count r !! S i = Some n' → n < n')
       ∧ (∀ i d, days r !! i = Some d → 120 <= d → nymph_count r !! i = Some 0)
       ∧ nymph_count r !! 58%nat = Some 1743
       ∧ adult_count r !! 58%nat = Some 0
       ∧ adult_count r !! 182%nat = Some 1743.
Proof.
  exists scenario_A_counts. split; [apply scenario_A_counts_eq|].
  split_and!; [| |done..].
  - intros i n n' Hi.
    do 58 (destruct i as [|i]; [simpl; intros [= <-] [= <-]; lia|]). lia.
  - intros i d Hd Hle.
    by apply (slf_late_phase_nymph_zero _ _ _ _ _ _ i d scenario_A_counts_eq).
Qed.

Lemma C6_scenario_A_profile_witness :
  ∃ n n', nymph_count scenario_A_counts !! 0%nat = Some n
          ∧ nymph_count scenario_A_counts !! 1%nat = Some n' ∧ n < n'.
Proof.
  destruct C6_scenario_A_profile as (r & Hr & Hrise & _).
  rewrite scenario_A_counts_eq in Hr. inversion Hr; subst r.
  exists 1000, 1010. split_and!; [done..|].
  apply (Hrise 0%nat 1000 1010); [lia | done | done].
Defined.

(** ** Scheduler: lookups by product name *)

Lemma elem_of_middle {A : Type} (l pre post : list A) (x : A) :
  l = pre ++ x :: post → x ∈ l.
Proof. intros ->. apply elem_of_app. right. apply elem_of_cons. by left. Qed.

Lemma head_filter_elem {A : Type} (P : A → Prop) `{!∀ x, Decision (P x)}
    (l : list A) (x : A) :
  x ∈ l → P x → is_Some (head (filter P l)).
Proof.
  intros Hx HP. destruct (filter P l) as [|y l'] eqn:E; [|by eexists].
  assert (Hin : x ∈ filter P l) by (by apply list_elem_of_filter).
  rewrite E in Hin. by apply elem_of_nil in Hin.
Qed.

Lemma head_filter_Product (df : list Pesticide) (p : Pesticide) :
  NoDup (Product <$> df) → p ∈ df →
  head (filter (λ q, Product q = Product p) df) = Some p.
Proof.
  induction df as [|q df IH]; intros Hnd Hin; [by apply elem_of_nil in Hin|].
  rewrite fmap_cons in Hnd. apply NoDup_cons in Hnd as [Hq Hnd].
  rewrite filter_cons. apply elem_of_cons in Hin as [->|Hin].
  - by rewrite decide_True.
  - rewrite decide_False; [by apply IH|].
    intros E. apply Hq. rewrite E. by apply list_elem_of_fmap_2.
Qed.

Lemma loc_first_effectiveness {B : Type} (col : Effectiveness → B)
    (df : list Pesticide) (day n a : Z) (name : string) :
  loc_first eff_Product col name (insecticide_effectiveness df day n a)
  = (λ p, col (mkEffectiveness (Product p)
                 (EffectOnNymphs p * Qc_of_Z n)%Qc (EffectOnAdults p * Qc_of_Z a)%Qc
                 (Qcmax 0%Qc (PHI p - Qc_of_Z day)%Qc)
                 (Qcmax 0%Qc (PHI p - Qc_of_Z day)%Qc)))
    <$> head (filter (λ p, Product p = name) df).
Proof.
  unfold loc_first, insecticide_effectiveness.
  induction df as [|q df IH]; [done|].
  rewrite fmap_cons, !filter_cons. simpl.
  destruct (decide (Product q = name)); [done | exact IH].
Qed.

(** ** Scheduler: one application *)

Lemma Row_set_pesticide_twice (r : ScheduleRow) (a b : string) :
  row_set_pesticide (row_set_pesticide r a) b = row_set_pesticide r b.
Proof. reflexivity. Qed.

Lemma seasonal_usage_record_application L p day rate :
  seasonal_usage (record_application L p day rate) !!! Product p
  = (seasonal_usage L !!! Product p + rate)%Qc.
Proof. unfold record_application; simpl. by rewrite lookup_total_insert_eq. Qed.

(** With unique product names the two lookups by name return the cells of
    the chosen row itself. *)
Lemma apply_product_unique_names df is_autumn row L p :
  NoDup (Product <$> df) → p ∈ df →
  apply_product df is_autumn row L p
  = (row_set_application_rate row (dose is_autumn row p),
     record_application L p (row_day row) (dose is_autumn row p),
     if bool_decide (SeasonalMax p
                     < seasonal_usage L !!! Product p + dose is_autumn row p)%Qc
     then Raised (ValueError_SeasonalMax (Product p)) else Applied).
Proof.
  intros Hnd Hin. unfold apply_product.
  rewrite loc_first_effectiveness, head_filter_Product by done.
  unfold loc_first. rewrite head_filter_Product by done.
  cbn [fmap option_fmap option_map].
  rewrite seasonal_usage_record_application.
  assert (Hd : (base_rate * (if is_autumn then Effect_on_Adults else Effect_on_Nymphs)
                  (mkEffectiveness (Product p)
                     (EffectOnNymphs p * Qc_of_Z (row_nymph_count row))%Qc
                     (EffectOnAdults p * Qc_of_Z (row_adult_count row))%Qc
                     (Qcmax 0%Qc (PHI p - Qc_of_Z (row_day row))%Qc)
                     (Qcmax 0%Qc (PHI p - Qc_of_Z (row_day row))%Qc)))%Qc
               = dose is_autumn row p).
  { unfold dose, relevant_rating, relevant_count. by destruct is_autumn. }
  rewrite Hd. by case_bool_decide.
Qed.

(** Whatever the names, an application of a table row writes a rate to the
    schedule row, performs the three ledger updates with that rate, and ends
    either normally or with the seasonal-cap error naming the product. *)
Lemma apply_product_shape df is_autumn row L p :
  p ∈ df →
  ∃ rate e,
    apply_product df is_autumn row L p
    = (row_set_application_rate row rate, record_application L p (row_day row) rate, e)
    ∧ (e = Applied ∨ e = Raised (ValueError_SeasonalMax (Product p))).
Proof.
  intros Hin. unfold apply_product.
  rewrite loc_first_effectiveness.
  destruct (head_filter_elem (λ q, Product q = Product p) df p Hin eq_refl) as [q Hq].
  rewrite Hq. unfold loc_first. rewrite Hq.
  cbn [fmap option_fmap option_map].
  case_bool_decide; eexists _, _; (split; [reflexivity | auto]).
Qed.

(** ** Scheduler: the product loop *)

Lemma scan_products_spec df harvest_day is_autumn candidates row L :
  (∃ pre p post,
      candidates = pre ++ p :: post
      ∧ Forall (λ q, qualifies is_autumn (row_day row) harvest_day L q = false) pre
      ∧ qualifies is_autumn (row_day row) harvest_day L p = true
      ∧ scan_products df harvest_day is_autumn candidates row L
        = apply_product df is_autumn (row_set_pesticide row (Product p)) L p)
  ∨ (Forall (λ q, qualifies is_autumn (row_day row) harvest_day L q = false) candidates
     ∧ ∃ row', scan_products df harvest_day is_autumn candidates row L = (row', L, Exhausted)
               ∧ same_but_pesticide row row').
Proof.
  revert row. induction candidates as [|c cs IH]; intros row.
  - right. split; [constructor|]. exists row. split; [done|by left].
  - simpl. unfold qualifies at 1 3.
    destruct (passes_gate is_autumn (row_day row) L c) eqn:Hg; simpl.
    + destruct (before_harvest_window (row_day row) harvest_day c) eqn:Hw.
      * left. exists [], c, cs. split_and!; [done | constructor | | done].
        unfold qualifies. by rewrite Hg, Hw.
      * destruct (IH (row_set_pesticide row (Product c)))
          as [(pre & p & post & -> & Hpre & Hp & Hs)|(Hall & row' & Hs & Hsame)].
        -- left. exists (c :: pre), p, post. simpl in *.
           split_and!; [done| |done|].
           ++ constructor; [|done]. unfold qualifies. by rewrite Hg, Hw.
           ++ by rewrite Hs.
        -- right. simpl in *. split.
           ++ constructor; [|done]. unfold qualifies. by rewrite Hg, Hw.
           ++ exists row'. split; [done|]. right.
              destruct Hsame as [->|[name ->]]; eauto.
    + destruct (IH row) as [(pre & p & post & -> & Hpre & Hp & Hs)|(Hall & row' & Hs & Hsame)].
      * left. exists (c :: pre), p, post. simpl.
        split_and!; [done| |done|done].
        constructor; [|done]. unfold qualifies. by rewrite Hg.
      * right. split; [|by exists row'].
        constructor; [|done]. unfold qualifies. by rewrite Hg.
Qed.

Lemma qualifies_summer (day harvest_day : Z) (L : Ledger) (p : Pesticide) :
  qualifies false day harvest_day L p = true ↔ summer_compliant day harvest_day L p.
Proof.
  unfold qualifies, passes_gate, before_harvest_window, summer_compliant,
    time_since_last_use_gt, high_efficacy.
  simpl. rewrite !andb_true_iff, !bool_decide_eq_true.
  destruct (last_use_day L !!! Class p); [|rewrite bool_decide_eq_true]; tauto.
Qed.

Lemma not_qualifies_summer (day harvest_day : Z) (L : Ledger) (p : Pesticide) :
  qualifies false day harvest_day L p = false ↔ ¬ summer_compliant day harvest_day L p.
Proof. rewrite <- qualifies_summer. by destruct (qualifies _ _ _ _ _). Qed.

(** In autumn the gate reduces to the efficacy test: rotation interval,
    seasonal cap and application count are not consulted. *)
Lemma passes_gate_autumn (day : Z) (L : Ledger) (p : Pesticide) :
  passes_gate true day L p = bool_decide (high_efficacy <= EffectOnAdults p)%Qc.
Proof. unfold passes_gate. simpl. by rewrite orb_false_r. Qed.

(** ** Scheduler: one day *)

Lemma process_day_no_treatment df harvest_day row L :
  treatment_required (is_autumn_on (row_day row)) row = false →
  process_day df harvest_day row L = (row, L, None).
Proof. intros H. unfold process_day. by rewrite H. Qed.

(** The day of a row on which the first qualifying product is [p]. *)
Lemma process_day_first_qualifying df harvest_day row L pre p post :
  treatment_required (is_autumn_on (row_day row)) row = true →
  df = pre ++ p :: post →
  Forall (λ q, qualifies (is_autumn_on (row_day row)) (row_day row) harvest_day L q = false) pre →
  qualifies (is_autumn_on (row_day row)) (row_day row) harvest_day L p = true →
  process_day df harvest_day row L
  = match apply_product df (is_autumn_on (row_day row))
            (row_set_pesticide row (Product p)) L p with
    | (row', L', Applied) => (row', L', None)
    | (row', L', Exhausted) => (row', L', Some (ValueError_NoSuitable (row_day row)))
    | (row', L', Raised e) => (row', L', Some e)
    end.
Proof.
  intros Hreq Hdf Hpre Hp. unfold process_day. rewrite Hreq.
  destruct (scan_products_spec df harvest_day (is_autumn_on (row_day row)) df row L)
    as [(pre' & p' & post' & Hdf' & Hpre' & Hp' & ->)|(Hall & _)].
  - (* the first qualifying row of a list is unique *)
    assert (pre' = pre ∧ p' = p) as [-> ->]; [|done].
    rewrite Hdf in Hdf'. clear Hdf.
    revert pre' Hdf' Hpre'. induction pre as [|a pre IH]; intros pre' Hdf' Hpre'.
    + destruct pre' as [|b pre']; simpl in Hdf'; [by inversion Hdf'|].
      inversion Hdf'; subst b post. apply Forall_cons in Hpre' as [Hb _]. congruence.
    + destruct pre' as [|b pre']; simpl in Hdf'.
      * inversion Hdf'; subst p' post'. apply Forall_cons in Hpre as [Ha _]. congruence.
      * inversion Hdf'; subst b. apply Forall_cons in Hpre as [_ Hpre].
        apply Forall_cons in Hpre' as [_ Hpre'].
        destruct (IH Hpre pre') as [-> ->]; done.
  - rewrite Forall_forall in Hall. rewrite Hall in Hp; [done|].
    by eapply elem_of_middle.
Qed.

Lemma process_day_none_qualifying df harvest_day row L :
  treatment_required (is_autumn_on (row_day row)) row = true →
  Forall (λ q, qualifies (is_autumn_on (row_day row)) (row_day row) harvest_day L q = false) df →
  ∃ row', process_day df harvest_day row L
          = (row', L, Some (ValueError_NoSuitable (row_day row)))
          ∧ same_but_pesticide row row'.
Proof.
  intros Hreq Hall. unfold process_day. rewrite Hreq.
  destruct (scan_products_spec df harvest_day (is_autumn_on (row_day row)) df row L)
    as [(pre' & p' & post' & Hdf' & _ & Hp' & _)|(_ & row' & -> & Hsame)].
  - rewrite Forall_forall in Hall. rewrite Hall in Hp'; [done|].
    by eapply elem_of_middle.
  - by exists row'.
Qed.

Lemma is_autumn_on_summer (day : Z) : day <= 92 → is_autumn_on day = false.
Proof. intros H. unfold is_autumn_on. by rewrite bool_decide_eq_true_2. Qed.

(** ** Scheduler: product selection *)

(** C1 (as stated, refuted).  Scenario A weather, harvest day 183, one
    product with seasonal maximum 100.  On day 2 the cumulative volume is 64
    and the dose is 64, so the volume after adding the dose (128) exceeds the
    maximum and the third condition of the claim fails; the code tests only
    the volume before the application (64 < 100), selects the product,
    records it in the row of day 2 and updates the ledger.  Moreover the name
    of a product is written to the row before the fifth condition is tested:
    a product with pre-harvest interval 200 fails that condition on day 1 and
    is still recorded in the row when the day aborts. *)
Lemma C1_counterexample_cap_tested_before_adding_dose :
  ∃ rows L e row1,
    strategy_loop scenario_A_temperature scenario_A_precipitation 183 [brigade 100 200]
      = Ok (rows, L, e)
    ∧ row_pesticide <$> rows !! 1%nat = Some (Some "Brigade")
    ∧ row_application_rate <$> rows !! 1%nat = Some (Qc_of_Z 64)
    ∧ row_application_rate <$> rows !! 0%nat = Some (Qc_of_Z 64)
    ∧ seasonal_use_count L !!! "Brigade" = 2
    ∧ seasonal_usage L !!! "Brigade" = Qc_of_Z 128
    ∧ ¬ (Qc_of_Z 64 + Qc_of_Z 64 <= SeasonalMax (brigade 100 200))%Qc
    ∧ process_day [late_product] 183 (mkScheduleRow 1 (Qc_of_Z 25) (Qc_of_Z 5) 10 0 None 0%Qc)
        (initial_ledger [late_product])
      = (row1, initial_ledger [late_product], Some (ValueError_NoSuitable 1))
    ∧ row_pesticide row1 = Some "Danitol"
    ∧ ¬ (Qc_of_Z 1 <= Qc_of_Z 183 - PHI late_product)%Qc.
Proof.
  eexists _, _, _, _. split; [vm_compute; reflexivity|].
  split_and!.
  - reflexivity.
  - simpl. f_equal. by apply Qc_is_canon.
  - simpl. f_equal. by apply Qc_is_canon.
  - by vm_compute.
  - apply Qc_is_canon. by vm_compute.
  - by vm_compute.
  - vm_compute. reflexivity.
  - reflexivity.
  - by vm_compute.
Qed.

(** C1 (amended).  On a summer day (day <= 92) on which the pressure
    threshold requires treatment, the scheduler applies the first product in
    table order that meets the five conditions of [summer_compliant] (the
    third one on the cumulative volume before this application, strictly
    below the seasonal maximum): that product is recorded in the row and the
    ledger is updated for it.  If no product meets them, nothing is applied
    and the day ends with the no-suitable-pesticide error; so a product that
    fails one of the conditions is never applied, and never recorded in the
    row of a day that ends without error. *)
Theorem C1_summer_first_compliant_product_applied
    (df : list Pesticide) (harvest_day : Z) (row : ScheduleRow) (L : Ledger) :
  row_day row <= 92 →
  treatment_required (is_autumn_on (row_day row)) row = true →
  (∃ pre p post rate e,
      df = pre ++ p :: post
      ∧ summer_compliant (row_day row) harvest_day L p
      ∧ (∀ q, q ∈ pre → ¬ summer_compliant (row_day row) harvest_day L q)
      ∧ process_day df harvest_day row L
        = (row_set_application_rate (row_set_pesticide row (Product p)) rate,
           record_application L p (row_day row) rate, e)
      ∧ (e = None ∨ e = Some (ValueError_SeasonalMax (Product p))))
  ∨ ((∀ q, q ∈ df → ¬ summer_compliant (row_day row) harvest_day L q)
     ∧ ∃ row',
         process_day df harvest_day row L
         = (row', L, Some (ValueError_NoSuitable (row_day row)))
         ∧ row_application_rate row' = row_application_rate row).
Proof.
  intros Hsummer Hreq.
  pose proof (is_autumn_on_summer _ Hsummer) as Hs.
  destruct (scan_products_spec df harvest_day (is_autumn_on (row_day row)) df row L)
    as [(pre & p & post & Hdf & Hpre & Hp & _)|(Hall & _)].
  - left.
    assert (Hin : p ∈ df) by (by eapply elem_of_middle).
    destruct (apply_product_shape df (is_autumn_on (row_day row))
                (row_set_pesticide row (Product p)) L p Hin) as (rate & e & Happ & He).
    rewrite (process_day_first_qualifying _ _ _ _ _ _ _ Hreq Hdf Hpre Hp), Happ.
    rewrite Hs in Hp, Hpre.
    exists pre, p, post, rate.
    exists (match e with Applied => None | Exhausted => None | Raised x => Some x end).
    split_and!.
    + done.
    + by apply qualifies_summer.
    + intros q Hq. apply not_qualifies_summer.
      rewrite Forall_forall in Hpre. by apply Hpre.
    + by destruct He as [-> | ->].
    + destruct He as [-> | ->]; auto.
  - right. split.
    + intros q Hq. apply not_qualifies_summer.
      pose proof (proj1 (Forall_forall _ _) Hall q Hq) as Hfail.
      by rewrite Hs in Hfail.
    + destruct (process_day_none_qualifying _ _ _ _ Hreq Hall) as (row' & -> & Hsame).
      exists row'. split; [done|]. by destruct Hsame as [-> | [name ->]].
Qed.

Lemma C1_summer_first_compliant_product_applied_witness :
  let df := [brigade 100 200] in
  let row := mkScheduleRow 1 (Qc_of_Z 25) (Qc_of_Z 5) 10 0 None 0%Qc in
  let L := initial_ledger df in
  (∃ pre p post rate e,
      df = pre ++ p :: post
      ∧ summer_compliant (row_day row) 183 L p
      ∧ (∀ q, q ∈ pre → ¬ summer_compliant (row_day row) 183 L q)
      ∧ process_day df 183 row L
        = (row_set_application_rate (row_set_pesticide row (Product p)) rate,
           record_application L p (row_day row) rate, e)
      ∧ (e = None ∨ e = Some (ValueError_SeasonalMax (Product p))))
  ∨ ((∀ q, q ∈ df → ¬ summer_compliant (row_day row) 183 L q)
     ∧ ∃ row',
         process_day df 183 row L
         = (row', L, Some (ValueError_NoSuitable (row_day row)))
         ∧ row_application_rate row' = row_application_rate row).
Proof.
  apply (C1_summer_first_compliant_product_applied
           [brigade 100 200] 183 (mkScheduleRow 1 (Qc_of_Z 25) (Qc_of_Z 5) 10 0 None 0%Qc)
           (initial_ledger [brigade 100 200])).
  - simpl. lia.
  - vm_compute. reflexivity.
Defined.

(** ** Scheduler: dose and ledger transition *)

(** C4 (as stated, refuted).  The efficacy handed back by
    [insecticide_effectiveness] is the rating multiplied by the day's
    population count, so the recorded rate is 6.4 x rating x count: for a
    product rated 1 it is 64 with 10 immature insects and 128 with 20, never
    the claimed 6.4. *)
Lemma C4_counterexample_dose_scales_with_population :
  ∃ sched row20 L20,
    pesticide_application_strategy scenario_A_temperature scenario_A_precipitation 183
      [brigade 10000 200] = Ok sched
    ∧ row_nymph_count <$> sched !! 0%nat = Some 10
    ∧ row_application_rate <$> sched !! 0%nat = Some (Qc_of_Z 64)
    ∧ process_day [brigade 10000 200] 183
        (mkScheduleRow 1 (Qc_of_Z 25) (Qc_of_Z 5) 20 0 None 0%Qc)
        (initial_ledger [brigade 10000 200]) = (row20, L20, None)
    ∧ row_application_rate row20 = Qc_of_Z 128
    ∧ (Qc_frac 64 10 * EffectOnNymphs (brigade 10000 200))%Qc = Qc_frac 64 10
    ∧ Qc_of_Z 64 ≠ Qc_frac 64 10.
Proof.
  eexists _, _, _. split; [vm_compute; reflexivity|].
  split_and!.
  - reflexivity.
  - simpl. f_equal. by apply Qc_is_canon.
  - vm_compute. reflexivity.
  - by apply Qc_is_canon.
  - by apply Qc_is_canon.
  - intros H. by apply (f_equal this) in H.
Qed.

(** C4 (amended).  With unique product names, a day either leaves the ledger
    and the recorded rate untouched, or applies one table product [p]: the
    recorded rate is 6.4 x (rating of [p] on the relevant stage) x (that
    day's count of the relevant stage), and cumulative volume, application
    count and last-use day of the class are all updated with it in the same
    step. *)
Theorem C4_dose_and_ledger_transition
    (df : list Pesticide) (harvest_day : Z) (row row' : ScheduleRow) (L L' : Ledger)
    (e : option Exn) :
  NoDup (Product <$> df) →
  process_day df harvest_day row L = (row', L', e) →
  (L' = L ∧ row_application_rate row' = row_application_rate row)
  ∨ (∃ p, p ∈ df
       ∧ row_pesticide row' = Some (Product p)
       ∧ row_application_rate row'
         = (Qc_frac 64 10
            * (relevant_rating (is_autumn_on (row_day row)) p
               * Qc_of_Z (relevant_count (is_autumn_on (row_day row)) row)))%Qc
       ∧ seasonal_usage L'
         = <[Product p := (seasonal_usage L !!! Product p + row_application_rate row')%Qc]>
             (seasonal_usage L)
       ∧ seasonal_use_count L'
         = <[Product p := seasonal_use_count L !!! Product p + 1]> (seasonal_use_count L)
       ∧ last_use_day L' = <[Class p := OnDay (row_day row)]> (last_use_day L)).
Proof.
  intros Hnd Hday.
  destruct (treatment_required (is_autumn_on (row_day row)) row) eqn:Hreq.
  - destruct (scan_products_spec df harvest_day (is_autumn_on (row_day row)) df row L)
      as [(pre & p & post & Hdf & Hpre & Hp & _)|(Hall & _)].
    + right.
      assert (Hin : p ∈ df) by (by eapply elem_of_middle).
      rewrite (process_day_first_qualifying _ _ _ _ _ _ _ Hreq Hdf Hpre Hp) in Hday.
      rewrite (apply_product_unique_names _ _ _ _ _ Hnd Hin) in Hday.
      exists p. split; [done|].
      case_bool_decide; inversion Hday; subst row' L'; done.
    + left.
      destruct (process_day_none_qualifying _ _ _ _ Hreq Hall) as (r & Hr & Hsame).
      rewrite Hr in Hday. inversion Hday; subst.
      split; [done|]. by destruct Hsame as [-> | [name ->]].
  - left. rewrite process_day_no_treatment in Hday by done.
    by inversion Hday; subst.
Qed.

Lemma C4_dose_and_ledger_transition_witness :
  let df := [brigade 10000 200] in
  let row := mkScheduleRow 1 (Qc_of_Z 25) (Qc_of_Z 5) 10 0 None 0%Qc in
  let rate := dose false row (brigade 10000 200) in
  let row' := row_set_application_rate (row_set_pesticide row "Brigade") rate in
  let L := initial_ledger df in
  let L' := record_application L (brigade 10000 200) 1 rate in
  (L' = L ∧ row_application_rate row' = row_application_rate row)
  ∨ (∃ p, p ∈ df
       ∧ row_pesticide row' = Some (Product p)
       ∧ row_application_rate row'
         = (Qc_frac 64 10
            * (relevant_rating (is_autumn_on (row_day row)) p
               * Qc_of_Z (relevant_count (is_autumn_on (row_day row)) row)))%Qc
       ∧ seasonal_usage L'
         = <[Product p := (seasonal_usage L !!! Product p + row_application_rate row')%Qc]>
             (seasonal_usage L)
       ∧ seasonal_use_count L'
         = <[Product p := seasonal_use_count L !!! Product p + 1]> (seasonal_use_count L)
       ∧ last_use_day L' = <[Class p := OnDay (row_day row)]> (last_use_day L)).
Proof.
  apply (C4_dose_and_ledger_transition [brigade 10000 200] 183
           (mkScheduleRow 1 (Qc_of_Z 25) (Qc_of_Z 5) 10 0 None 0%Qc) _ _ _ None).
  - apply NoDup_singleton.
  - vm_compute. reflexivity.
Defined.

(** ** Scheduler: the day loop *)

(** Running the loop over a schedule split in two. *)
Lemma run_days_app df harvest_day (before later : list ScheduleRow) (L0 : Ledger) :
  run_days df harvest_day (before ++ later) L0
  = match run_days df harvest_day before L0 with
    | (done_rows, L, Some e) => (done_rows ++ later, L, Some e)
    | (done_rows, L, None) =>
        let '(rest, L', e) := run_days df harvest_day later L in
        (done_rows ++ rest, L', e)
    end.
Proof.
  revert L0. induction before as [|r before IH]; intros L0; simpl.
  - by destruct (run_days df harvest_day later L0) as [[rest L'] e].
  - destruct (process_day df harvest_day r L0) as [[r' L1] [e|]]; [done|].
    rewrite IH.
    destruct (run_days df harvest_day before L1) as [[done_rows L] [e|]]; [done|].
    by destruct (run_days df harvest_day later L) as [[rest L'] e].
Qed.

(** An exception raised in the day loop is the result of the function. *)
Lemma strategy_raises temperature precipitation harvest_day df rows L e :
  strategy_loop temperature precipitation harvest_day df = Ok (rows, L, Some e) →
  pesticide_application_strategy temperature precipitation harvest_day df = Raise e.
Proof. intros H. unfold pesticide_application_strategy. by rewrite H. Qed.

(** ** Scheduler: seasonal cap *)

(** C2 (as stated, refuted).  The seasonal-cap error carries the product
    name only.  With seasonal maximum 50 the run aborts on day 1, with
    seasonal maximum 100 on day 2 (the ledgers at the abort show the last-use
    days 1 and 2), and the two runs raise the same error value: the error
    does not identify the day. *)
Lemma C2_counterexample_error_does_not_carry_day :
  ∃ rows1 L1 rows2 L2 e,
    strategy_loop scenario_A_temperature scenario_A_precipitation 183 [brigade 50 200]
      = Ok (rows1, L1, Some e)
    ∧ strategy_loop scenario_A_temperature scenario_A_precipitation 183 [brigade 100 200]
      = Ok (rows2, L2, Some e)
    ∧ e = ValueError_SeasonalMax "Brigade"
    ∧ last_use_day L1 !!! "Pyrethroid" = OnDay 1
    ∧ last_use_day L2 !!! "Pyrethroid" = OnDay 2
    ∧ pesticide_application_strategy scenario_A_temperature scenario_A_precipitation 183
        [brigade 50 200] = Raise e
    ∧ pesticide_application_strategy scenario_A_temperature scenario_A_precipitation 183
        [brigade 100 200] = Raise e.
Proof.
  eexists _, _, _, _, _. split; [vm_compute; reflexivity|].
  split; [vm_compute; reflexivity|].
  split_and!; by vm_compute.
Qed.

(** C2 (amended).  Let [p] be the product the scan applies on the day of
    [row] (unique product names), after the earlier rows were processed
    without error.  If the dose pushes the cumulative volume of [p] above its
    seasonal maximum -- in particular if [p] has not been used yet and its
    seasonal maximum is below the dose -- the day loop stops at that row with
    the seasonal-cap error, which names the product (and nothing else); the
    ledger at that moment holds the update that caused the violation
    (cumulative volume, application count, last-use day of the class); the
    function raises that error. *)
Theorem C2_seasonal_cap_exceeded_aborts
    (df : list Pesticide) (harvest_day : Z) (before rest done_rows : list ScheduleRow)
    (row : ScheduleRow) (L0 L : Ledger) (pre post : list Pesticide) (p : Pesticide) :
  let is_autumn := is_autumn_on (row_day row) in
  let rate := dose is_autumn row p in
  NoDup (Product <$> df) →
  run_days df harvest_day before L0 = (done_rows, L, None) →
  treatment_required is_autumn row = true →
  df = pre ++ p :: post →
  Forall (λ q, qualifies is_autumn (row_day row) harvest_day L q = false) pre →
  qualifies is_autumn (row_day row) harvest_day L p = true →
  (SeasonalMax p < seasonal_usage L !!! Product p + rate)%Qc
  ∨ (seasonal_usage L !!! Product p = 0%Qc ∧ (SeasonalMax p < rate)%Qc) →
  ∃ L',
    run_days df harvest_day (before ++ row :: rest) L0
    = (done_rows ++ row_set_application_rate (row_set_pesticide row (Product p)) rate :: rest,
       L', Some (ValueError_SeasonalMax (Product p)))
    ∧ L' = record_application L p (row_day row) rate
    ∧ seasonal_usage L' !!! Product p = (seasonal_usage L !!! Product p + rate)%Qc
    ∧ (SeasonalMax p < seasonal_usage L' !!! Product p)%Qc
    ∧ seasonal_use_count L' !!! Product p = seasonal_use_count L !!! Product p + 1
    ∧ last_use_day L' !!! Class p = OnDay (row_day row)
    ∧ (∀ temperature precipitation,
         strategy_loop temperature precipitation harvest_day df
         = Ok (run_days df harvest_day (before ++ row :: rest) L0) →
         pesticide_application_strategy temperature precipitation harvest_day df
         = Raise (ValueError_SeasonalMax (Product p))).
Proof.
  intros is_autumn rate Hnd Hbefore Hreq Hdf Hpre Hp Hexc.
  assert (Hover : (SeasonalMax p < seasonal_usage L !!! Product p + rate)%Qc).
  { destruct Hexc as [H | [H0 H]]; [done|]. by rewrite H0, Qcplus_0_l. }
  assert (Hin : p ∈ df) by (by eapply elem_of_middle).
  assert (Hrun : run_days df harvest_day (before ++ row :: rest) L0
                 = (done_rows
                    ++ row_set_application_rate (row_set_pesticide row (Product p)) rate :: rest,
                    record_application L p (row_day row) rate,
                    Some (ValueError_SeasonalMax (Product p)))).
  { rewrite run_days_app, Hbefore. simpl.
    rewrite (process_day_first_qualifying _ _ _ _ _ _ _ Hreq Hdf Hpre Hp).
    rewrite (apply_product_unique_names _ _ _ _ _ Hnd Hin).
    fold is_autumn.
    replace (dose is_autumn (row_set_pesticide row (Product p)) p) with rate by done.
    by rewrite bool_decide_eq_true_2. }
  exists (record_application L p (row_day row) rate).
  split_and!; [done | done | | | | |].
  - apply seasonal_usage_record_application.
  - by rewrite seasonal_usage_record_application.
  - unfold record_application; simpl. by rewrite lookup_total_insert_eq.
  - unfold record_application; simpl. by rewrite lookup_total_insert_eq.
  - intros temperature precipitation Hloop. rewrite Hrun in Hloop.
    by apply strategy_raises in Hloop.
Qed.

(** Scenario D: seasonal maximum 50, below the first dose of 64; the first
    use, on day 1, raises the error with the update committed. *)
Lemma C2_seasonal_cap_exceeded_aborts_witness :
  let df := [brigade 50 200] in
  let row := mkScheduleRow 1 (Qc_of_Z 25) (Qc_of_Z 5) 10 0 None 0%Qc in
  let p := brigade 50 200 in
  let rate := dose false row p in
  let L := initial_ledger df in
  ∃ L',
    run_days df 183 ([] ++ row :: []) L
    = ([] ++ row_set_application_rate (row_set_pesticide row (Product p)) rate :: [],
       L', Some (ValueError_SeasonalMax (Product p)))
    ∧ L' = record_application L p (row_day row) rate
    ∧ seasonal_usage L' !!! Product p = (seasonal_usage L !!! Product p + rate)%Qc
    ∧ (SeasonalMax p < seasonal_usage L' !!! Product p)%Qc
    ∧ seasonal_use_count L' !!! Product p = seasonal_use_count L !!! Product p + 1
    ∧ last_use_day L' !!! Class p = OnDay (row_day row)
    ∧ (∀ temperature precipitation,
         strategy_loop temperature precipitation 183 df
         = Ok (run_days df 183 ([] ++ row :: []) L) →
         pesticide_application_strategy temperature precipitation 183 df
         = Raise (ValueError_SeasonalMax (Product p))).
Proof.
  apply (C2_seasonal_cap_exceeded_aborts [brigade 50 200] 183 [] [] []
           (mkScheduleRow 1 (Qc_of_Z 25) (Qc_of_Z 5) 10 0 None 0%Qc)
           (initial_ledger [brigade 50 200]) (initial_ledger [brigade 50 200])
           [] [] (brigade 50 200)).
  - apply NoDup_singleton.
  - reflexivity.
  - vm_compute. reflexivity.
  - reflexivity.
  - constructor.
  - vm_compute. reflexivity.
  - right. split; [by apply Qc_is_canon | by vm_compute].
Defined.

(** ** Scheduler: no compliant product *)

(** C3 (evaluation at the failing input).  Scenario A weather, harvest day
    183, one product allowed 92 applications.  It is applied on each of the
    days 1..92, so on day 120, the next day that requires treatment, its
    application count (92) is no longer below the maximum and no product of
    the table qualifies.  The autumn branch of the gate skips that test: the
    product is applied again, day 120 raises nothing, and the run completes
    with 156 applications. *)
Lemma C3_exhausted_product_applied_in_autumn :
  let df := [brigade 10000 92] in
  ∃ slf row120 done_rows L119 row120' L120 sched L,
    slf_population_model scenario_A_temperature scenario_A_precipitation 10 1 183 = Some slf
    ∧ initial_rows 1 scenario_A_temperature scenario_A_precipitation
        (nymph_count slf) (adult_count slf) !! 119%nat = Some row120
    ∧ run_days df 183
        (take 119 (initial_rows 1 scenario_A_temperature scenario_A_precipitation
                     (nymph_count slf) (adult_count slf)))
        (initial_ledger df) = (done_rows, L119, None)
    ∧ row_day row120 = 120
    ∧ treatment_required (is_autumn_on 120) row120 = true
    ∧ seasonal_use_count L119 !!! "Brigade" = 92
    ∧ ¬ (Qc_of_Z (seasonal_use_count L119 !!! "Brigade") < MaxApplications (brigade 10000 92))%Qc
    ∧ process_day df 183 row120 L119 = (row120', L120, None)
    ∧ row_pesticide row120' = Some "Brigade"
    ∧ seasonal_use_count L120 !!! "Brigade" = 93
    ∧ strategy_loop scenario_A_temperature scenario_A_precipitation 183 df = Ok (sched, L, None)
    ∧ seasonal_use_count L !!! "Brigade" = 156
    ∧ pesticide_application_strategy scenario_A_temperature scenario_A_precipitation 183 df
      = Ok sched.
Proof.
  intros df. eexists _, _, _, _, _, _, _, _.
  split; [vm_compute; reflexivity|].
  split; [vm_compute; reflexivity|].
  split; [vm_compute; reflexivity|].
  split; [reflexivity|].
  split; [vm_compute; reflexivity|].
  split; [vm_compute; reflexivity|].
  split; [by vm_compute|].
  split; [vm_compute; reflexivity|].
  split; [reflexivity|].
  split; [vm_compute; reflexivity|].
  split; [vm_compute; reflexivity|].
  split; [vm_compute; reflexivity|].
  vm_compute. reflexivity.
Qed.

(** Scenario B of the specification, which falls in summer: with a single
    product allowed one application, day 1 applies it and day 2, the second
    day that requires treatment, raises the no-suitable-pesticide error. *)
Lemma scenario_B_error_on_second_day :
  pesticide_application_strategy scenario_A_temperature scenario_A_precipitation 183
    [brigade 10000 1] = Raise (ValueError_NoSuitable 2).
Proof. vm_compute. reflexivity. Qed.

(** ** Outcome evaluator *)

Lemma profit_loop_raises df pesticide_cost pesticide_area mold_growth_rate todo acc :
  (∃ row, row ∈ todo ∧ (0 < row_application_rate row)%Qc) →
  profit_loop df pesticide_cost pesticide_area mold_growth_rate todo acc
  = Raise (match harvest_day_column df with
           | None => KeyError "harvest_day"
           | Some _ => ValueError_ambiguous
           end).
Proof.
  revert acc. induction todo as [|r todo IH]; intros acc (row & Hin & Hpos).
  - by apply elem_of_nil in Hin.
  - simpl. unfold profit_step.
    destruct (decide (0 < row_application_rate r)%Qc) as [Hr|Hr].
    + rewrite bool_decide_eq_true_2 by done.
      by destruct (harvest_day_column df).
    + rewrite bool_decide_eq_false_2 by done.
      apply IH. exists row. split; [|done].
      apply elem_of_cons in Hin as [->|Hin]; done.
Qed.

Lemma profit_loop_no_application df pesticide_cost pesticide_area mold_growth_rate todo acc :
  Forall (λ row, ¬ (0 < row_application_rate row)%Qc) todo →
  profit_loop df pesticide_cost pesticide_area mold_growth_rate todo acc
  = Ok (mkTotals
          (foldl (λ c r, if truthy (row_pesticide r)
                         then (c + pesticide_cost * pesticide_area)%Qc else c)
                 (total_pesticide_cost acc) todo)
          (foldl (λ m r, (m + mold_growth_rate
                              * (Qc_of_Z (row_nymph_count r) + Qc_of_Z (row_adult_count r)))%Qc)
                 (total_mold_impact acc) todo)
          (total_harvest_penalty acc)).
Proof.
  revert acc. induction todo as [|r todo IH]; intros acc Hall.
  - by destruct acc.
  - apply Forall_cons in Hall as [Hr Hall]. simpl. unfold profit_step.
    rewrite bool_decide_eq_false_2 by done. by rewrite IH.
Qed.

(** On a frame without any positive application rate the evaluator returns
    the profit formula, with a harvest penalty of 0. *)
Lemma calculate_profit_without_application
    (vineyard_length depth : Qc) (df : Frame)
    (pesticide_cost base_yield price_per_grape mold_growth_rate harvest_penalty_rate : Qc) :
  Forall (λ row, ¬ (0 < row_application_rate row)%Qc) (rows df) →
  calculate_profit vineyard_length depth df pesticide_cost base_yield price_per_grape
    mold_growth_rate harvest_penalty_rate
  = Ok (Qcmax 0%Qc (base_yield - mold_impact mold_growth_rate (rows df) - 0)
        * price_per_grape
        - pesticide_cost_total pesticide_cost (vineyard_length * Qc_of_Z 4 * depth) (rows df))%Qc.
Proof.
  intros Hall. unfold calculate_profit.
  by rewrite profit_loop_no_application.
Qed.

(** C9 (evaluation at the failing inputs).  As soon as one row of the frame
    has a positive application rate, the harvest-penalty test subscripts the
    frame with 'harvest_day': the call raises [KeyError] when the frame has
    no such column (the scheduler's output has none) and [ValueError]
    otherwise; no profit is returned. *)
Theorem C9_profit_raises_on_any_application
    (vineyard_length depth : Qc) (df : Frame)
    (pesticide_cost base_yield price_per_grape mold_growth_rate harvest_penalty_rate : Qc) :
  (∃ row, row ∈ rows df ∧ (0 < row_application_rate row)%Qc) →
  calculate_profit vineyard_length depth df pesticide_cost base_yield price_per_grape
    mold_growth_rate harvest_penalty_rate
  = Raise (match harvest_day_column df with
           | None => KeyError "harvest_day"
           | Some _ => ValueError_ambiguous
           end).
Proof.
  intros Hex. unfold calculate_profit.
  by rewrite profit_loop_raises.
Qed.

Lemma C9_profit_raises_on_any_application_witness :
  calculate_profit (Qc_of_Z 100) (Qc_of_Z 20)
    (mkFrame [mkScheduleRow 1 (Qc_of_Z 25) (Qc_of_Z 5) 10 0 (Some "Brigade") (Qc_of_Z 64)] None)
    1%Qc (Qc_of_Z 1000) 1%Qc 0%Qc 0%Qc
  = Raise (KeyError "harvest_day").
Proof.
  apply (C9_profit_raises_on_any_application (Qc_of_Z 100) (Qc_of_Z 20)
           (mkFrame [mkScheduleRow 1 (Qc_of_Z 25) (Qc_of_Z 5) 10 0 (Some "Brigade") (Qc_of_Z 64)] None)).
  eexists. split; [apply list_elem_of_singleton; reflexivity|].
  by vm_compute.
Defined.

(** ** Scheduler: the returned schedule *)

Lemma Qc_of_Z_le_floor (d : Z) (b : Qc) : (Qc_of_Z d <= b)%Qc ↔ d <= Qfloor b.
Proof.
  unfold Qcle. rewrite Qc_of_Z_this. split.
  - intros H. apply Qfloor_resp_le in H. by rewrite Qfloor_Z in H.
  - intros H. eapply Qle_trans; [|apply Qfloor_le]. by rewrite <- Zle_Qle.
Qed.

Lemma apply_product_day df is_autumn row L p :
  row_day (apply_product df is_autumn row L p).1.1 = row_day row.
Proof.
  unfold apply_product.
  destruct (loc_first eff_Product _ _ _); [|done].
  destruct (loc_first Product _ _ _); [|done].
  by case_bool_decide.
Qed.

Lemma scan_products_day df harvest_day is_autumn candidates row L :
  row_day (scan_products df harvest_day is_autumn candidates row L).1.1 = row_day row.
Proof.
  revert row. induction candidates as [|c cs IH]; intros row; [done|].
  simpl. destruct (passes_gate _ _ _ _); [|apply IH].
  destruct (before_harvest_window _ _ _).
  - by rewrite apply_product_day.
  - by rewrite IH.
Qed.

Lemma process_day_day df harvest_day row L :
  row_day (process_day df harvest_day row L).1.1 = row_day row.
Proof.
  unfold process_day. destruct (treatment_required _ _); [|done].
  pose proof (scan_products_day df harvest_day (is_autumn_on (row_day row)) df row L) as H.
  by destruct (scan_products _ _ _ _ _ _) as [[r L'] [| |e]].
Qed.

Lemma run_days_days df harvest_day rows L :
  row_day <$> (run_days df harvest_day rows L).1.1 = row_day <$> rows.
Proof.
  revert L. induction rows as [|r rows IH]; intros L; [done|].
  simpl. pose proof (process_day_day df harvest_day r L) as Hr.
  destruct (process_day df harvest_day r L) as [[r' L'] [e|]]; simpl in *.
  - by f_equal.
  - specialize (IH L').
    destruct (run_days df harvest_day rows L') as [[rest L''] e]; simpl in *.
    by f_equal.
Qed.

Lemma initial_rows_days (d : Z) (ts ps : list Qc) (ns as_ : list Z) :
  length ps = length ts → length ns = length ts → length as_ = length ts →
  row_day <$> initial_rows d ts ps ns as_
  = (λ i : nat, d + Z.of_nat i) <$> seq 0 (length ts).
Proof.
  revert d ps ns as_. induction ts as [|t ts IH]; intros d ps ns as_ Hp Hn Ha; [done|].
  destruct ps as [|p ps], ns as [|n ns], as_ as [|a as_]; try done.
  simpl in *. rewrite Z.add_0_r. f_equal.
  rewrite IH by lia. rewrite <- fmap_S_seq, <- list_fmap_compose.
  apply list_fmap_ext. intros _ i _. simpl. lia.
Qed.

Lemma filter_days_prefix (rows : list ScheduleRow) (d k : Z) :
  row_day <$> rows = (λ i : nat, d + Z.of_nat i) <$> seq 0 (length rows) →
  row_day <$> filter (λ r, row_day r <= k) rows
  = (λ i : nat, d + Z.of_nat i)
    <$> seq 0 (Z.to_nat (Z.min (Z.of_nat (length rows)) (k - d + 1))).
Proof.
  revert d. induction rows as [|r rows IH]; intros d Hdays.
  - simpl. by replace (Z.to_nat (Z.min (Z.of_nat 0) (k - d + 1))) with 0%nat by lia.
  - simpl in Hdays. rewrite Z.add_0_r in Hdays.
    injection Hdays as Hr Hrest.
    rewrite <- fmap_S_seq, <- list_fmap_compose in Hrest.
    assert (Hrest' : row_day <$> rows
                     = (λ i : nat, (d + 1) + Z.of_nat i) <$> seq 0 (length rows)).
    { etrans; [exact Hrest|]. apply list_fmap_ext. intros _ i _. simpl. lia. }
    specialize (IH (d + 1) Hrest').
    rewrite filter_cons. case_decide as Hk.
    + rewrite fmap_cons, IH.
      replace (Z.to_nat (Z.min (Z.of_nat (length (r :: rows))) (k - d + 1)))
        with (S (Z.to_nat (Z.min (Z.of_nat (length rows)) (k - (d + 1) + 1))))
        by (simpl length; lia).
      simpl. rewrite Z.add_0_r, Hr. f_equal.
      rewrite <- fmap_S_seq, <- list_fmap_compose.
      apply list_fmap_ext. intros _ i _. simpl. lia.
    + rewrite IH.
      replace (Z.to_nat (Z.min (Z.of_nat (length rows)) (k - (d + 1) + 1))) with 0%nat by lia.
      replace (Z.to_nat (Z.min (Z.of_nat (length (r :: rows))) (k - d + 1))) with 0%nat
        by (simpl length; lia).
      done.
Qed.

Lemma foldl_Qcmax_spec (rest : list Pesticide) (x : Qc) :
  let m := foldl (λ m q, Qcmax m (PHI q)) x rest in
  (x <= m)%Qc ∧ (∀ q, q ∈ rest → (PHI q <= m)%Qc) ∧ (m = x ∨ ∃ q, q ∈ rest ∧ PHI q = m).
Proof.
  revert x. induction rest as [|c rest IH]; intros x; simpl.
  - split_and!; [apply Qcle_refl | by intros q ?%elem_of_nil | by left].
  - destruct (IH (Qcmax x (PHI c))) as (Hge & Hall & Hex).
    assert (Hx : (x <= Qcmax x (PHI c))%Qc) by apply Qcmax_ge_l.
    assert (Hc : (PHI c <= Qcmax x (PHI c))%Qc).
    { unfold Qcmax. case_decide as H; [apply Qcle_refl | by apply Qcnot_lt_le]. }
    split_and!.
    + by eapply Qcle_trans.
    + intros q [->|Hq]%elem_of_cons; [by eapply Qcle_trans | by apply Hall].
    + destruct Hex as [Hm | (q & Hq & Hm)].
      * rewrite Hm. unfold Qcmax. case_decide; [|by left].
        right. exists c. split; [apply elem_of_cons; by left | done].
      * right. exists q. split; [apply elem_of_cons; by right | done].
Qed.

Lemma max_PHI_spec (df : list Pesticide) (m : Qc) :
  max_PHI df = Some m →
  (∀ p, p ∈ df → (PHI p <= m)%Qc) ∧ (∃ p, p ∈ df ∧ PHI p = m).
Proof.
  destruct df as [|c rest]; simpl; [done|]. intros [= <-].
  destruct (foldl_Qcmax_spec rest (PHI c)) as (Hge & Hall & Hex). split.
  - intros p [->|Hp]%elem_of_cons; [done | by apply Hall].
  - destruct Hex as [Hm | (q & Hq & Hm)].
    + exists c. split; [apply elem_of_cons; by left | done].
    + exists q. split; [apply elem_of_cons; by right | done].
Qed.

(** A completed call: the pieces the function went through. *)
Lemma strategy_success temperature precipitation harvest_day df sched :
  pesticide_application_strategy temperature precipitation harvest_day df = Ok sched →
  ∃ slf rows L,
    slf_population_model temperature precipitation 10 1 183 = Some slf
    ∧ length precipitation = length temperature
    ∧ length (nymph_count slf) = length temperature
    ∧ length (adult_count slf) = length temperature
    ∧ run_days df harvest_day
        (initial_rows 1 temperature precipitation (nymph_count slf) (adult_count slf))
        (initial_ledger df) = (rows, L, None)
    ∧ sched = filter_actionable df harvest_day rows.
Proof.
  unfold pesticide_application_strategy, strategy_loop.
  unfold default_initial_eggs, default_start_day, default_end_day.
  destruct (slf_population_model _ _ _ _ _) as [slf|]; [|done].
  case_bool_decide as Hlen; [|done].
  destruct Hlen as (Hp & Hn & Ha).
  destruct (run_days _ _ _ _) as [[rows L] [e|]] eqn:Hrun; [done|].
  intros [= <-]. by exists slf, rows, L.
Qed.

(** With the default of 10 eggs the first schedule row is day 1 with 10
    immature insects, whatever the weather. *)
Lemma default_first_row temperature precipitation slf :
  slf_population_model temperature precipitation 10 1 183 = Some slf →
  ∃ t p ts ps ns as_,
    length (nymph_count slf) = 183%nat
    ∧ initial_rows 1 temperature precipitation (nymph_count slf) (adult_count slf)
      = mkScheduleRow 1 t p 10 0 None 0%Qc :: initial_rows 2 ts ps ns as_.
Proof.
  intros Hslf.
  destruct (slf_population_model_cells _ _ _ _ _ _ Hslf) as (cells & Hloop & _ & Hn & Ha).
  pose proof (model_loop_length _ _ _ _ _ _ _ Hloop) as Hlen.
  change (Z.to_nat (183 + 1 - 1)) with 183%nat in *.
  destruct (lookup_lt_is_Some_2 cells 0) as [x Hx]; [lia|].
  destruct (model_loop_head _ _ _ _ _ _ _ _ Hloop Hx) as (t & p & Ht & Hp & ->).
  destruct temperature as [|t' ts]; [done|]. destruct precipitation as [|p' ps]; [done|].
  simpl in Ht, Hp. inversion Ht; inversion Hp; subst t' p'.
  destruct cells as [|c cells]; [done|]. simpl in Hx. inversion Hx; subst c.
  rewrite Hn, Ha. exists t, p, ts, ps, (fst <$> cells), (snd <$> cells).
  split; [by rewrite length_fmap|]. reflexivity.
Qed.

(** C8 (as stated, refuted).  Scenario A weather with harvest day 200 and a
    product of pre-harvest interval 0: the run completes and returns the 183
    rows of the input, days 1..183, not the claimed days
    1..(harvestDay - maxPHI) = 1..200. *)
Lemma C8_counterexample_harvest_after_last_day :
  ∃ sched,
    pesticide_application_strategy scenario_A_temperature scenario_A_precipitation 200
      [brigade 10000 200] = Ok sched
    ∧ max_PHI [brigade 10000 200] = Some 0%Qc
    ∧ row_day <$> sched = arange 1 184
    ∧ row_day <$> sched ≠ arange 1 (200 - 0 + 1).
Proof.
  eexists. split; [vm_compute; reflexivity|].
  split_and!; [reflexivity | by vm_compute | by vm_compute].
Qed.

(** C8 (amended).  When the scheduler returns a schedule, the input has 183
    days, the table is not empty, and the returned rows are exactly one row
    per day for the days 1..min(183, harvestDay - maxPHI), in increasing
    order, where maxPHI is the largest pre-harvest interval of the table;
    every later day is excluded. *)
Theorem C8_schedule_covers_actionable_days
    (temperature precipitation : list Qc) (harvest_day : Z) (df : list Pesticide)
    (sched : list ScheduleRow) :
  pesticide_application_strategy temperature precipitation harvest_day df = Ok sched →
  ∃ maxPHI,
    max_PHI df = Some maxPHI
    ∧ (∀ p, p ∈ df → (PHI p <= maxPHI)%Qc)
    ∧ (∃ p, p ∈ df ∧ PHI p = maxPHI)
    ∧ length temperature = 183%nat
    ∧ row_day <$> sched
      = arange 1 (Z.min (Z.of_nat (length temperature))
                        (Qfloor (Qc_of_Z harvest_day - maxPHI)%Qc) + 1).
Proof.
  intros Hok.
  destruct (strategy_success _ _ _ _ _ Hok)
    as (slf & rows & L & Hslf & Hp & Hn & Ha & Hrun & ->).
  destruct (default_first_row _ _ _ Hslf) as (t & p & ts & ps & ns & as_ & Hlen & Hrows).
  assert (HT : length temperature = 183%nat) by lia.
  assert (Hdays : row_day <$> rows
                  = (λ i : nat, 1 + Z.of_nat i) <$> seq 0 (length temperature)).
  { rewrite <- (initial_rows_days 1 temperature precipitation
                 (nymph_count slf) (adult_count slf)) by done.
    pose proof (run_days_days df harvest_day
                  (initial_rows 1 temperature precipitation
                     (nymph_count slf) (adult_count slf)) (initial_ledger df)) as H.
    by rewrite Hrun in H. }
  assert (Hrl : length rows = length temperature).
  { apply (f_equal length) in Hdays. by rewrite !length_fmap, length_seq in Hdays. }
  destruct (max_PHI df) as [m|] eqn:Hmax.
  - exists m. destruct (max_PHI_spec df m Hmax) as [Hall Hex].
    split_and!; [done..|].
    unfold filter_actionable. rewrite Hmax.
    rewrite (list_filter_iff _ (λ r, row_day r <= Qfloor (Qc_of_Z harvest_day - m)%Qc));
      [|intros r; apply Qc_of_Z_le_floor].
    rewrite (filter_days_prefix rows 1) by (by rewrite Hrl).
    unfold arange. rewrite Hrl. do 2 f_equal. lia.
  - (* an empty table cannot survive day 1, which always requires treatment *)
    destruct df as [|c df]; [|done].
    rewrite Hrows in Hrun. simpl in Hrun. done.
Qed.

Lemma C8_schedule_covers_actionable_days_witness :
  ∃ sched maxPHI,
    pesticide_application_strategy scenario_A_temperature scenario_A_precipitation 190
      [brigade 10000 200; danitol] = Ok sched
    ∧ max_PHI [brigade 10000 200; danitol] = Some maxPHI
    ∧ row_day <$> sched
      = arange 1 (Z.min (Z.of_nat (length scenario_A_temperature))
                        (Qfloor (Qc_of_Z 190 - maxPHI)%Qc) + 1)
    ∧ arange 1 (Z.min (Z.of_nat (length scenario_A_temperature))
                      (Qfloor (Qc_of_Z 190 - maxPHI)%Qc) + 1)
      = arange 1 180.
Proof.
  eexists.
  destruct (C8_schedule_covers_actionable_days
              scenario_A_temperature scenario_A_precipitation 190
              [brigade 10000 200; danitol] _ ltac:(vm_compute; reflexivity))
    as (m & Hm & _ & _ & _ & Hdays).
  exists m. split_and!; [vm_compute; reflexivity | exact Hm | exact Hdays |].
  vm_compute in Hm. inversion Hm; subst m. by vm_compute.
Defined.

(** ** Scheduler: scenario B for any weather *)

(** With the default of 10 eggs the second schedule row is day 2, again with
    10 immature insects: the daily growth [int(10 * 0.01 * ...)] is 0. *)
Lemma default_first_two_rows temperature precipitation slf :
  slf_population_model temperature precipitation 10 1 183 = Some slf →
  ∃ t1 p1 t2 p2 rest,
    initial_rows 1 temperature precipitation (nymph_count slf) (adult_count slf)
    = mkScheduleRow 1 t1 p1 10 0 None 0%Qc :: mkScheduleRow 2 t2 p2 10 0 None 0%Qc :: rest.
Proof.
  intros Hslf.
  destruct (slf_population_model_cells _ _ _ _ _ _ Hslf) as (cells & Hloop & _ & Hn & Ha).
  pose proof (model_loop_length _ _ _ _ _ _ _ Hloop) as Hlen.
  change (Z.to_nat (183 + 1 - 1)) with 183%nat in *.
  destruct (lookup_lt_is_Some_2 cells 0) as [x Hx]; [lia|].
  destruct (lookup_lt_is_Some_2 cells 1) as [y Hy]; [lia|].
  destruct (model_loop_head _ _ _ _ _ _ _ _ Hloop Hx) as (t1 & p1 & Ht1 & Hp1 & ->).
  destruct (model_loop_step _ _ _ _ _ _ _ _ _ _ Hloop Hx Hy) as (t2 & p2 & Ht2 & Hp2 & ->).
  change (day_update 10 1 t1 p1 (0, 0)) with (10, 0) in *.
  rewrite day_update_early, growth_small in Hy by lia.
  destruct temperature as [|? [|? ts]]; try done.
  destruct precipitation as [|? [|? ps]]; try done.
  simpl in Ht1, Hp1, Ht2, Hp2. simplify_eq.
  destruct cells as [|c1 [|c2 cells]]; try done.
  simpl in Hx, Hy. simplify_eq.
  rewrite Hn, Ha. by eexists _, _, _, _, _.
Qed.

Lemma slf_population_model_default_total (temperature precipitation : list Qc) :
  length temperature = 183%nat → length precipitation = 183%nat →
  is_Some (slf_population_model temperature precipitation 10 1 183).
Proof.
  intros HT HP. unfold slf_population_model. rewrite length_arange.
  destruct (model_loop_total 10 (Z.to_nat (183 + 1 - 1)) 1 temperature precipitation (0, 0))
    as [cells ->]; [rewrite HT; simpl; lia | rewrite HP; simpl; lia |].
  by eexists.
Qed.

(** Scenario B.  A table with a single product allowed one application: if
    day 1 applies it without exceeding the seasonal cap, the call raises the
    no-suitable-pesticide error for day 2, whatever the weather. *)
Lemma scenario_B_single_application_product
    (temperature precipitation : list Qc) (harvest_day : Z) (p : Pesticide) :
  length temperature = 183%nat → length precipitation = 183%nat →
  MaxApplications p = 1%Qc →
  summer_compliant 1 harvest_day (initial_ledger [p]) p →
  ¬ (SeasonalMax p < 0 + base_rate * (EffectOnNymphs p * Qc_of_Z 10))%Qc →
  pesticide_application_strategy temperature precipitation harvest_day [p]
  = Raise (ValueError_NoSuitable 2).
Proof.
  intros HT HP Hmax Hok Hcap.
  destruct (slf_population_model_default_total temperature precipitation HT HP) as [slf Hslf].
  destruct (default_first_two_rows _ _ _ Hslf) as (t1 & p1 & t2 & p2 & rest & Hrows).
  destruct (slf_population_model_cells _ _ _ _ _ _ Hslf) as (cells & Hloop & _ & Hn & Ha).
  pose proof (model_loop_length _ _ _ _ _ _ _ Hloop) as Hlen.
  change (Z.to_nat (183 + 1 - 1)) with 183%nat in *.
  unfold pesticide_application_strategy, strategy_loop.
  unfold default_initial_eggs, default_start_day, default_end_day.
  rewrite Hslf, bool_decide_eq_true_2
    by (by rewrite Hn, Ha, !length_fmap, Hlen, HT, HP).
  rewrite Hrows. cbn [run_days].
  set (r1 := mkScheduleRow 1 t1 p1 10 0 None 0%Qc).
  set (r2 := mkScheduleRow 2 t2 p2 10 0 None 0%Qc).
  assert (Hreq1 : treatment_required (is_autumn_on (row_day r1)) r1 = true) by done.
  assert (Hreq2 : treatment_required (is_autumn_on (row_day r2)) r2 = true) by done.
  rewrite (process_day_first_qualifying [p] harvest_day r1 _ [] p [] Hreq1 eq_refl);
    [|constructor | by apply qualifies_summer].
  rewrite apply_product_unique_names
    by (apply NoDup_singleton || (apply list_elem_of_singleton; reflexivity)).
  assert (Hl0 : seasonal_usage (initial_ledger [p]) !!! Product p = 0%Qc).
  { unfold initial_ledger; simpl. by rewrite lookup_total_insert_eq. }
  rewrite bool_decide_eq_false_2 by (by rewrite Hl0).
  set (L1 := record_application _ _ _ _).
  destruct (process_day_none_qualifying [p] harvest_day r2 L1 Hreq2) as (r2' & -> & _);
    [|done].
  constructor; [|constructor].
  apply not_qualifies_summer. intros (_ & _ & _ & Hcount & _).
  unfold L1, record_application in Hcount; simpl in Hcount.
  rewrite lookup_total_insert_eq, Hmax in Hcount.
  unfold initial_ledger in Hcount; simpl in Hcount.
  rewrite lookup_total_insert_eq in Hcount. by vm_compute in Hcount.
Qed.

(** * Further properties of the code *)

(** ** Population model: input length and day range *)

Lemma model_loop_Some_lengths initial_eggs n day (ts ps : list Qc) prev l :
  model_loop initial_eggs n day ts ps prev = Some l →
  (n <= length ts)%nat ∧ (n <= length ps)%nat.
Proof.
  revert day ts ps prev l.
  induction n as [|n IH]; intros day ts ps prev l; simpl; [lia|].
  destruct ts as [|t ts], ps as [|p ps]; try done.
  destruct (model_loop _ n _ _ _ _) as [rest|] eqn:E; simpl; [|done].
  intros _. apply IH in E. simpl. lia.
Qed.

Lemma model_loop_take initial_eggs n day (ts ps : list Qc) prev :
  model_loop initial_eggs n day ts ps prev
  = model_loop initial_eggs n day (take n ts) (take n ps) prev.
Proof.
  revert day ts ps prev.
  induction n as [|n IH]; intros day ts ps prev; simpl; [done|].
  destruct ts as [|t ts], ps as [|p ps]; simpl; try done.
  by rewrite <- IH.
Qed.


(** X2.  Entries of the series beyond the day range are never read: the
    result is the one obtained from the series cut to the length of the
    range. *)
Theorem X2_population_model_ignores_extra_entries
    (temperature precipitation : list Qc) (initial_eggs start_day end_day : Z) :
  slf_population_model temperature precipitation initial_eggs start_day end_day
  = slf_population_model
      (take (Z.to_nat (end_day + 1 - start_day)) temperature)
      (take (Z.to_nat (end_day + 1 - start_day)) precipitation)
      initial_eggs start_day end_day.
Proof.
  unfold slf_population_model. rewrite length_arange.
  by rewrite model_loop_take.
Qed.

(** ** Population model: day-indexed invariants *)

(** [R d x]: [x] may be the cell handed to the loop body of day [d].  A
    property kept by the body on every day from [day] on holds of every cell
    the loop writes. *)
Lemma model_loop_invariant_by_day (R : Z → Z * Z → Prop) initial_eggs n day ts ps prev l :
  (∀ d t p x, day <= d → R d x → R (d + 1) (day_update initial_eggs d t p x)) →
  R day prev →
  model_loop initial_eggs n day ts ps prev = Some l →
  ∀ (i : nat) x, l !! i = Some x → R (day + Z.of_nat i + 1) x.
Proof.
  revert day ts ps prev l.
  induction n as [|n IH]; intros day ts ps prev l Hstep Hprev; simpl.
  - by intros [= <-] i x ?.
  - destruct ts as [|t ts], ps as [|p ps]; try done.
    destruct (model_loop _ n _ _ _ _) as [rest|] eqn:E; simpl; [|done].
    intros [= <-] i x Hx. destruct i as [|i]; simpl in Hx.
    + inversion Hx; subst x. rewrite Z.add_0_r. by apply Hstep.
    + replace (day + Z.of_nat (S i) + 1) with ((day + 1) + Z.of_nat i + 1) by lia.
      eapply (IH (day + 1)); [| |exact E|exact Hx].
      * intros d t' p' y Hd. apply Hstep. lia.
      * by apply Hstep.
Qed.

Lemma growth_zero (t p : Qc) : growth 0 t p = 0.
Proof. apply growth_small. lia. Qed.

(** X3.  When the day range starts after day 1 the eggs never hatch: the
    body of day 1 is the only one that reads [initial_eggs], and the first
    iteration reads the wrapped-around cell [0]; every count is 0. *)
Theorem X3_range_starting_after_day_1_is_all_zero
    (temperature precipitation : list Qc) (initial_eggs start_day end_day : Z)
    (r : SlfCounts) :
  1 < start_day →
  slf_population_model temperature precipitation initial_eggs start_day end_day = Some r →
  (∀ i n, nymph_count r !! i = Some n → n = 0)
  ∧ (∀ i a, adult_count r !! i = Some a → a = 0).
Proof.
  intros Hstart Hr.
  destruct (slf_population_model_cells _ _ _ _ _ _ Hr) as (cells & Hloop & _ & Hn & Ha).
  assert (Hz : ∀ (i : nat) x, cells !! i = Some x → x = (0, 0)).
  { intros i x Hx.
    eapply (model_loop_invariant_by_day (λ _ y, y = (0, 0))
              initial_eggs _ start_day _ _ (0, 0) cells);
      [|reflexivity|exact Hloop|exact Hx].
    simpl. intros d t p y Hd ->. unfold day_update.
    repeat case_decide; rewrite ?growth_zero; (done || lia). }
  rewrite Hn, Ha. split; intros i v; rewrite list_lookup_fmap;
    destruct (cells !! i) as [x|] eqn:E; simpl; try done;
    intros [= <-]; by rewrite (Hz i x E).
Qed.

Lemma X3_range_starting_after_day_1_is_all_zero_witness :
  (∀ i n, [0; 0; 0] !! i = Some n → n = 0)
  ∧ (∀ i a, [0; 0; 0] !! i = Some a → a = 0).
Proof.
  apply (X3_range_starting_after_day_1_is_all_zero
           (replicate 3 (Qc_of_Z 25)) (replicate 3 (Qc_of_Z 5)) 1000 2 4
           (mkSlfCounts [2; 3; 4] [0; 0; 0] [0; 0; 0])).
  - lia.
  - vm_compute. reflexivity.
Defined.

(** X4.  The mature count is 0 on every day before day 60, the first entry
    and day 1 included, for any series and any egg count. *)
Theorem X4_no_adults_before_day_60
    (temperature precipitation : list Qc) (initial_eggs start_day end_day : Z)
    (r : SlfCounts) (i : nat) (d : Z) :
  slf_population_model temperature precipitation initial_eggs start_day end_day = Some r →
  days r !! i = Some d → d < 60 →
  adult_count r !! i = Some 0.
Proof.
  intros Hr Hday Hd.
  destruct (slf_population_model_cells _ _ _ _ _ _ Hr) as (cells & Hloop & Hdays & _ & Ha).
  pose proof (model_loop_length _ _ _ _ _ _ _ Hloop) as Hlen.
  rewrite Hdays in Hday.
  pose proof (lookup_lt_Some _ _ _ Hday) as Hlt. rewrite length_arange in Hlt.
  apply lookup_arange in Hday.
  destruct (lookup_lt_is_Some_2 cells i) as [x Hx]; [lia|].
  rewrite Ha, list_lookup_fmap, Hx. simpl. f_equal.
  eapply (model_loop_invariant_by_day (λ d' y, d' <= 60 → snd y = 0)
            initial_eggs _ start_day _ _ (0, 0) cells);
    [|simpl; intros _; reflexivity|exact Hloop|exact Hx|lia].
  simpl. intros d' t p [n a] _ _ Hd'. unfold day_update.
  repeat case_decide; (done || lia).
Qed.

Lemma X4_no_adults_before_day_60_witness :
  adult_count scenario_A_counts !! 58%nat = Some 0.
Proof.
  apply (X4_no_adults_before_day_60
           scenario_A_temperature scenario_A_precipitation 1000 1 183
           scenario_A_counts 58 59).
  - vm_compute. reflexivity.
  - reflexivity.
  - lia.
Defined.

(** ** Population model: size of the daily change *)







(** ** Population model: small populations *)

(** The cell written on a day from day 1 on, for fewer than 100 eggs. *)
Lemma small_population_cell initial_eggs n start_day ts ps cells (i : nat) x :
  0 <= initial_eggs < 100 →
  start_day <= 1 →
  model_loop initial_eggs n start_day ts ps (0, 0) = Some cells →
  cells !! i = Some x →
  1 <= start_day + Z.of_nat i →
  x = if decide (start_day + Z.of_nat i < 120) then (initial_eggs, 0) else (0, initial_eggs).
Proof.
  intros Heggs Hstart Hloop Hx Hd1.
  assert (HR : (start_day + Z.of_nat i + 1 <= 1 → x = (0, 0))
               ∧ (2 <= start_day + Z.of_nat i + 1 <= 120 → x = (initial_eggs, 0))
               ∧ (121 <= start_day + Z.of_nat i + 1 → x = (0, initial_eggs))).
  { eapply (model_loop_invariant_by_day
              (λ d' y, (d' <= 1 → y = (0, 0))
                       ∧ (2 <= d' <= 120 → y = (initial_eggs, 0))
                       ∧ (121 <= d' → y = (0, initial_eggs)))
              initial_eggs _ start_day _ _ (0, 0) cells);
      [|simpl; split_and!; (done || lia)|exact Hloop|exact Hx].
    simpl. intros d' t p y _ (H1 & H2 & H3).
    pose proof (growth_small initial_eggs t p Heggs) as Hg.
    split_and!; intros Hd'.
    - rewrite H1 by lia. unfold day_update.
      repeat case_decide; rewrite ?growth_zero; (done || lia).
    - destruct (decide (d' = 1)) as [->|Hne].
      + rewrite H1 by lia. done.
      + rewrite H2 by lia. unfold day_update.
        repeat case_decide; rewrite ?Hg; try lia; f_equal; lia.
    - destruct (decide (d' = 120)) as [->|Hne].
      + rewrite H2 by lia. unfold day_update.
        repeat case_decide; try lia. f_equal.
      + rewrite H3 by lia. unfold day_update.
        repeat case_decide; try lia. f_equal; lia. }
  destruct HR as (_ & H2 & H3).
  case_decide; [apply H2 | apply H3]; lia.
Qed.

(** X6.  With fewer than 100 eggs the truncated daily increment is always
    0, so the weather has no influence at all: from day 1 to day 119 the
    immature count is the egg count and the mature count 0, from day 120 on
    the immature count is 0 and the mature count the egg count.  The
    scheduler, which calls the model with its default of 10 eggs, is in this
    case. *)
Theorem X6_small_population_ignores_weather
    (temperature precipitation : list Qc) (initial_eggs start_day end_day : Z)
    (r : SlfCounts) (i : nat) (d : Z) :
  0 <= initial_eggs < 100 →
  start_day <= 1 →
  slf_population_model temperature precipitation initial_eggs start_day end_day = Some r →
  days r !! i = Some d →
  1 <= d →
  (d < 120 → nymph_count r !! i = Some initial_eggs ∧ adult_count r !! i = Some 0)
  ∧ (120 <= d → nymph_count r !! i = Some 0 ∧ adult_count r !! i = Some initial_eggs).
Proof.
  intros Heggs Hstart Hr Hday Hd1.
  destruct (slf_population_model_cells _ _ _ _ _ _ Hr) as (cells & Hloop & Hdays & Hn & Ha).
  pose proof (model_loop_length _ _ _ _ _ _ _ Hloop) as Hlen.
  rewrite Hdays in Hday.
  pose proof (lookup_lt_Some _ _ _ Hday) as Hlt. rewrite length_arange in Hlt.
  apply lookup_arange in Hday.
  destruct (lookup_lt_is_Some_2 cells i) as [x Hx]; [lia|].
  pose proof (small_population_cell _ _ _ _ _ _ _ _ Heggs Hstart Hloop Hx) as Hcell.
  rewrite <- Hday in Hcell. specialize (Hcell Hd1).
  rewrite Hn, Ha, !list_lookup_fmap, Hx. simpl.
  split; intros Hd.
  - by rewrite Hcell, decide_True by lia.
  - by rewrite Hcell, decide_False by lia.
Qed.

Lemma X6_small_population_ignores_weather_witness :
  (3 < 120 → [10; 10; 10] !! 2%nat = Some 10 ∧ [0; 0; 0] !! 2%nat = Some 0)
  ∧ (120 <= 3 → [10; 10; 10] !! 2%nat = Some 0 ∧ [0; 0; 0] !! 2%nat = Some 10).
Proof.
  apply (X6_small_population_ignores_weather
           [Qc_of_Z 30; Qc_of_Z 12; Qc_of_Z 25] [Qc_of_Z 0; Qc_of_Z 5; Qc_of_Z 9] 10 1 3
           (mkSlfCounts [1; 2; 3] [10; 10; 10] [0; 0; 0]) 2 3).
  - lia.
  - lia.
  - vm_compute. reflexivity.
  - reflexivity.
  - lia.
Defined.

(** ** Effectiveness frame *)




(** ** Scheduler: lookups by name with repeated product names *)

Lemma first_row_named_elem (df : list Pesticide) (p : Pesticide) :
  p ∈ df →
  ∃ q pre post,
    first_row_named (Product p) df = Some q
    ∧ df = pre ++ q :: post
    ∧ Product q = Product p
    ∧ (∀ x, x ∈ pre → Product x ≠ Product p).
Proof.
  unfold first_row_named. induction df as [|c df IH]; intros Hin.
  - by apply elem_of_nil in Hin.
  - rewrite filter_cons. destruct (decide (Product c = Product p)) as [Hc|Hc].
    + exists c, [], df. split_and!; [done..|]. by intros x ?%elem_of_nil.
    + apply elem_of_cons in Hin as [->|Hin]; [done|].
      destruct (IH Hin) as (q & pre & post & Hq & -> & Hname & Hpre).
      exists q, (c :: pre), post. split_and!; [done..|].
      intros x [->|Hx]%elem_of_cons; [done | by apply Hpre].
Qed.

(** The application of a table row [p], whatever the names: dose and cap
    come from the first row that carries the name of [p]. *)
Lemma apply_product_first_row df is_autumn row L p q :
  first_row_named (Product p) df = Some q →
  apply_product df is_autumn row L p
  = (row_set_application_rate row (dose is_autumn row q),
     record_application L p (row_day row) (dose is_autumn row q),
     if bool_decide (SeasonalMax q
                     < seasonal_usage L !!! Product p + dose is_autumn row q)%Qc
     then Raised (ValueError_SeasonalMax (Product p)) else Applied).
Proof.
  unfold first_row_named. intros Hq. unfold apply_product.
  rewrite loc_first_effectiveness, Hq.
  unfold loc_first. rewrite Hq.
  cbn [fmap option_fmap option_map].
  rewrite seasonal_usage_record_application.
  assert (Hd : (base_rate * (if is_autumn then Effect_on_Adults else Effect_on_Nymphs)
                  (mkEffectiveness (Product q)
                     (EffectOnNymphs q * Qc_of_Z (row_nymph_count row))%Qc
                     (EffectOnAdults q * Qc_of_Z (row_adult_count row))%Qc
                     (Qcmax 0%Qc (PHI q - Qc_of_Z (row_day row))%Qc)
                     (Qcmax 0%Qc (PHI q - Qc_of_Z (row_day row))%Qc)))%Qc
               = dose is_autumn row q).
  { unfold dose, relevant_rating, relevant_count. by destruct is_autumn. }
  rewrite Hd. by case_bool_decide.
Qed.

(** X8.  Dose and seasonal cap are looked up by product name, and a lookup
    by name reads the first table row carrying that name.  When a later row
    [p] with a repeated name is applied, the recorded rate is computed from
    the rating of the first row [q] of that name and the cap check uses the
    seasonal maximum of [q], while the ledger entries updated are those of
    the name and of the class of [p]. *)
Theorem X8_lookups_by_name_read_first_row
    (df : list Pesticide) (is_autumn : bool) (row : ScheduleRow) (L : Ledger) (p : Pesticide) :
  p ∈ df →
  ∃ q pre post,
    df = pre ++ q :: post
    ∧ Product q = Product p
    ∧ (∀ x, x ∈ pre → Product x ≠ Product p)
    ∧ apply_product df is_autumn row L p
      = (row_set_application_rate row
           (Qc_frac 64 10 * (relevant_rating is_autumn q
                             * Qc_of_Z (relevant_count is_autumn row)))%Qc,
         record_application L p (row_day row)
           (Qc_frac 64 10 * (relevant_rating is_autumn q
                             * Qc_of_Z (relevant_count is_autumn row)))%Qc,
         if bool_decide
              (SeasonalMax q
               < seasonal_usage L !!! Product p
                 + Qc_frac 64 10 * (relevant_rating is_autumn q
                                    * Qc_of_Z (relevant_count is_autumn row)))%Qc
         then Raised (ValueError_SeasonalMax (Product p)) else Applied).
Proof.
  intros Hin.
  destruct (first_row_named_elem df p Hin) as (q & pre & post & Hq & Hdf & Hname & Hpre).
  exists q, pre, post. split_and!; [done..|].
  by rewrite (apply_product_first_row _ _ _ _ _ _ Hq).
Qed.

(** The second row named "Brigade" is rated 0.75 with seasonal maximum
    10000; applied on a day with 10 immature insects it is dosed with the
    rating 1 of the first row (64, not 48) and checked against the seasonal
    maximum 50 of the first row, so the application raises. *)
Lemma X8_lookups_by_name_read_first_row_witness :
  let df := [brigade 50 200; brigade_weak] in
  let row := mkScheduleRow 1 (Qc_of_Z 25) (Qc_of_Z 5) 10 0 (Some "Brigade") 0%Qc in
  let L := initial_ledger df in
  ∃ q pre post,
    df = pre ++ q :: post
    ∧ Product q = Product brigade_weak
    ∧ (∀ x, x ∈ pre → Product x ≠ Product brigade_weak)
    ∧ apply_product df false row L brigade_weak
      = (row_set_application_rate row
           (Qc_frac 64 10 * (relevant_rating false q
                             * Qc_of_Z (relevant_count false row)))%Qc,
         record_application L brigade_weak (row_day row)
           (Qc_frac 64 10 * (relevant_rating false q
                             * Qc_of_Z (relevant_count false row)))%Qc,
         if bool_decide
              (SeasonalMax q
               < seasonal_usage L !!! Product brigade_weak
                 + Qc_frac 64 10 * (relevant_rating false q
                                    * Qc_of_Z (relevant_count false row)))%Qc
         then Raised (ValueError_SeasonalMax (Product brigade_weak)) else Applied).
Proof.
  apply (X8_lookups_by_name_read_first_row [brigade 50 200; brigade_weak] false
           (mkScheduleRow 1 (Qc_of_Z 25) (Qc_of_Z 5) 10 0 (Some "Brigade") 0%Qc)
           (initial_ledger [brigade 50 200; brigade_weak]) brigade_weak).
  apply elem_of_cons. right. apply elem_of_cons. by left.
Defined.

(** ** Scheduler: the three ways a day can end *)

Lemma process_day_cases df harvest_day row L row' L' e :
  process_day df harvest_day row L = (row', L', e) →
  let is_autumn := is_autumn_on (row_day row) in
  (treatment_required is_autumn row = false ∧ row' = row ∧ L' = L ∧ e = None)
  ∨ (treatment_required is_autumn row = true
     ∧ Forall (λ q, qualifies is_autumn (row_day row) harvest_day L q = false) df
     ∧ same_but_pesticide row row' ∧ L' = L
     ∧ e = Some (ValueError_NoSuitable (row_day row)))
  ∨ (treatment_required is_autumn row = true
     ∧ ∃ pre p post q,
         df = pre ++ p :: post
         ∧ Forall (λ x, qualifies is_autumn (row_day row) harvest_day L x = false) pre
         ∧ qualifies is_autumn (row_day row) harvest_day L p = true
         ∧ first_row_named (Product p) df = Some q
         ∧ row' = row_set_application_rate (row_set_pesticide row (Product p))
                    (dose is_autumn row q)
         ∧ L' = record_application L p (row_day row) (dose is_autumn row q)
         ∧ e = if bool_decide (SeasonalMax q
                               < seasonal_usage L !!! Product p + dose is_autumn row q)%Qc
               then Some (ValueError_SeasonalMax (Product p)) else None).
Proof.
  intros Hday is_autumn. subst is_autumn.
  destruct (treatment_required (is_autumn_on (row_day row)) row) eqn:Hreq.
  - destruct (scan_products_spec df harvest_day (is_autumn_on (row_day row)) df row L)
      as [(pre & p & post & Hdf & Hpre & Hp & _)|(Hall & _)].
    + right. right. split; [done|].
      assert (Hin : p ∈ df) by (by eapply elem_of_middle).
      destruct (first_row_named_elem df p Hin) as (q & _ & _ & Hq & _).
      rewrite (process_day_first_qualifying _ _ _ _ _ _ _ Hreq Hdf Hpre Hp) in Hday.
      rewrite (apply_product_first_row _ _ _ _ _ _ Hq) in Hday.
      change (dose (is_autumn_on (row_day row)) (row_set_pesticide row (Product p)) q)
        with (dose (is_autumn_on (row_day row)) row q) in Hday.
      change (row_day (row_set_pesticide row (Product p))) with (row_day row) in Hday.
      exists pre, p, post, q.
      case_bool_decide; inversion Hday; subst row' L' e; split_and!; done.
    + right. left.
      destruct (process_day_none_qualifying _ _ _ _ Hreq Hall) as (r & Hr & Hsame).
      rewrite Hr in Hday. inversion Hday; subst. done.
  - left. rewrite process_day_no_treatment in Hday by done.
    by inversion Hday; subst.
Qed.

(** A day changes the ledger only by the three updates of one application. *)
Lemma process_day_ledger df harvest_day row L row' L' e :
  process_day df harvest_day row L = (row', L', e) →
  L' = L ∨ ∃ p rate, p ∈ df ∧ L' = record_application L p (row_day row) rate.
Proof.
  intros Hday.
  destruct (process_day_cases _ _ _ _ _ _ _ Hday)
    as [(_ & _ & -> & _)|[(_ & _ & _ & -> & _)|(_ & pre & p & post & q & Hdf & _ & _ & _ & _ & -> & _)]];
    [by left | by left |].
  right. exists p, (dose (is_autumn_on (row_day row)) row q).
  split; [by eapply elem_of_middle | done].
Qed.

(** A property of ledgers kept by every application is kept by the day
    loop, whether it completes or aborts. *)
Lemma run_days_ledger_invariant (I : Ledger → Prop) df harvest_day rows L0 rows' L e :
  (∀ L1 p day rate, p ∈ df → I L1 → I (record_application L1 p day rate)) →
  I L0 →
  run_days df harvest_day rows L0 = (rows', L, e) → I L.
Proof.
  intros Hstep. revert L0 rows' L e.
  induction rows as [|r rows IH]; intros L0 rows' L e HI; simpl.
  - by intros [= _ <- _].
  - destruct (process_day df harvest_day r L0) as [[r' L1] e1] eqn:Hday.
    assert (HI1 : I L1).
    { destruct (process_day_ledger _ _ _ _ _ _ _ Hday) as [->|(p & rate & Hp & ->)];
        [done | by apply Hstep]. }
    destruct e1 as [e1|]; [by intros [= _ <- _]|].
    destruct (run_days df harvest_day rows L1) as [[rest L2] e2] eqn:Hrun.
    intros [= _ <- _]. by eapply IH.
Qed.

Lemma initial_ledger_covers (df : list Pesticide) : ledger_covers df (initial_ledger df).
Proof.
  intros p Hp. unfold initial_ledger; simpl.
  split_and!; apply elem_of_dom; rewrite dom_list_to_map_L;
    apply elem_of_list_to_set; rewrite <- list_fmap_compose;
    apply list_elem_of_fmap; by exists p.
Qed.

(** X9.  The three dictionaries are created with every class and every
    product of the table as a key, and an application only overwrites
    entries, so at the end of the day loop -- completed or aborted, after
    any number of days -- every class and product of the table is still a
    key: the subscripts of the loop can never raise [KeyError]. *)
Theorem X9_ledger_keys_cover_table
    (df : list Pesticide) (harvest_day : Z) (rows rows' : list ScheduleRow) (L : Ledger)
    (e : option Exn) :
  run_days df harvest_day rows (initial_ledger df) = (rows', L, e) →
  ledger_covers df L.
Proof.
  intros Hrun.
  eapply (run_days_ledger_invariant (ledger_covers df)); [|apply initial_ledger_covers|exact Hrun].
  intros L1 p day rate Hp Hcov x Hx. destruct (Hcov x Hx) as (H1 & H2 & H3).
  unfold record_application; simpl.
  split_and!; apply lookup_insert_is_Some'; by right.
Qed.

Lemma X9_ledger_keys_cover_table_witness :
  ledger_covers [brigade 100 200; danitol]
    (run_days [brigade 100 200; danitol] 183
       [mkScheduleRow 1 (Qc_of_Z 25) (Qc_of_Z 5) 10 0 None 0%Qc]
       (initial_ledger [brigade 100 200; danitol])).1.2.
Proof.
  apply (X9_ledger_keys_cover_table [brigade 100 200; danitol] 183
           [mkScheduleRow 1 (Qc_of_Z 25) (Qc_of_Z 5) 10 0 None 0%Qc]
           (run_days [brigade 100 200; danitol] 183
              [mkScheduleRow 1 (Qc_of_Z 25) (Qc_of_Z 5) 10 0 None 0%Qc]
              (initial_ledger [brigade 100 200; danitol])).1.1 _
           (run_days [brigade 100 200; danitol] 183
              [mkScheduleRow 1 (Qc_of_Z 25) (Qc_of_Z 5) 10 0 None 0%Qc]
              (initial_ledger [brigade 100 200; danitol])).2).
  by destruct (run_days _ _ _ _) as [[? ?] ?].
Defined.

(** ** Scheduler: the rows it starts from *)

Lemma initial_rows_lookup (d : Z) (ts ps : list Qc) (ns as_ : list Z) (i : nat) row :
  initial_rows d ts ps ns as_ !! i = Some row →
  ∃ t p n a,
    ts !! i = Some t ∧ ps !! i = Some p ∧ ns !! i = Some n ∧ as_ !! i = Some a
    ∧ row = mkScheduleRow (d + Z.of_nat i) t p n a None 0%Qc.
Proof.
  revert d ps ns as_ i. induction ts as [|t ts IH]; intros d ps ns as_ i; [done|].
  destruct ps as [|p ps], ns as [|n ns], as_ as [|a as_]; try done.
  destruct i as [|i]; simpl.
  - intros [= <-]. exists t, p, n, a. by rewrite Z.add_0_r.
  - intros Hrow. destruct (IH _ _ _ _ _ Hrow) as (t' & p' & n' & a' & ? & ? & ? & ? & ->).
    exists t', p', n', a'. split_and!; [done..|]. f_equal. lia.
Qed.

(** The schedule rows built from the model called with its defaults. *)
Lemma default_rows temperature precipitation slf (i : nat) row :
  slf_population_model temperature precipitation 10 1 183 = Some slf →
  initial_rows 1 temperature precipitation (nymph_count slf) (adult_count slf) !! i
    = Some row →
  ∃ t p,
    row = mkScheduleRow (1 + Z.of_nat i) t p
            (if decide (1 + Z.of_nat i < 120) then 10 else 0)
            (if decide (1 + Z.of_nat i < 120) then 0 else 10) None 0%Qc.
Proof.
  intros Hslf Hrow.
  destruct (slf_population_model_cells _ _ _ _ _ _ Hslf) as (cells & Hloop & _ & Hn & Ha).
  destruct (initial_rows_lookup _ _ _ _ _ _ _ Hrow) as (t & p & n & a & _ & _ & Hni & Hai & ->).
  rewrite Hn in Hni. rewrite Ha in Hai.
  pose proof (lookup_cells _ _ _ _ Hni Hai) as Hx.
  assert (Hcell := small_population_cell 10 _ 1 _ _ _ _ _
                     ltac:(lia) ltac:(lia) Hloop Hx ltac:(lia)).
  exists t, p. case_decide; by inversion Hcell.
Qed.

Lemma treatment_required_default (d : Z) (t p : Qc) :
  treatment_required (is_autumn_on d)
    (mkScheduleRow d t p (if decide (d < 120) then 10 else 0)
       (if decide (d < 120) then 0 else 10) None 0%Qc) = true
  ↔ d <= 92 ∨ 120 <= d.
Proof.
  unfold treatment_required, is_autumn_on; simpl.
  destruct (decide (d <= 92)) as [H92|H92].
  - rewrite bool_decide_eq_true_2, decide_True by lia. simpl. split; [by left|done].
  - rewrite (bool_decide_eq_false_2 (d <= 92)) by done. simpl.
    destruct (decide (d < 120)) as [H120|H120]; simpl; split; try done; lia.
Qed.

(** X10.  The scheduler calls the model with its default of 10 eggs, so the
    rows it starts from do not depend on the weather: on each day up to 119
    there are 10 immature and no mature insects, from day 120 on 10 mature
    and no immature ones; hence treatment is required exactly on the days
    1..92 and 120..183, for every temperature and precipitation series. *)
Theorem X10_treatment_days_do_not_depend_on_weather
    (temperature precipitation : list Qc) (slf : SlfCounts) (i : nat) (row : ScheduleRow) :
  slf_population_model temperature precipitation
    default_initial_eggs default_start_day default_end_day = Some slf →
  initial_rows 1 temperature precipitation (nymph_count slf) (adult_count slf) !! i
    = Some row →
  row_day row = 1 + Z.of_nat i
  ∧ row_nymph_count row = (if decide (row_day row < 120) then 10 else 0)
  ∧ row_adult_count row = (if decide (row_day row < 120) then 0 else 10)
  ∧ row_pesticide row = None
  ∧ row_application_rate row = 0%Qc
  ∧ (treatment_required (is_autumn_on (row_day row)) row = true
     ↔ row_day row <= 92 ∨ 120 <= row_day row).
Proof.
  intros Hslf Hrow.
  destruct (default_rows _ _ _ _ _ Hslf Hrow) as (t & p & ->). simpl.
  split_and!; [done..|]. apply treatment_required_default.
Qed.

Lemma X10_treatment_days_do_not_depend_on_weather_witness :
  ∃ slf row,
    slf_population_model scenario_A_temperature scenario_A_precipitation 10 1 183 = Some slf
    ∧ initial_rows 1 scenario_A_temperature scenario_A_precipitation
        (nymph_count slf) (adult_count slf) !! 99%nat = Some row
    ∧ row_day row = 100
    ∧ row_nymph_count row = 10
    ∧ (treatment_required (is_autumn_on (row_day row)) row = true
       ↔ row_day row <= 92 ∨ 120 <= row_day row).
Proof.
  eexists _, _.
  split; [vm_compute; reflexivity|].
  split; [vm_compute; reflexivity|].
  split; [reflexivity|]. split; [reflexivity|].
  eapply (X10_treatment_days_do_not_depend_on_weather
            scenario_A_temperature scenario_A_precipitation _ 99).
  - vm_compute. reflexivity.
  - vm_compute. reflexivity.
Defined.

(** ** Scheduler: the rows of a completed run *)

Lemma run_days_row_inv df harvest_day rows L0 rows' L (i : nat) row' :
  run_days df harvest_day rows L0 = (rows', L, None) →
  rows' !! i = Some row' →
  ∃ row Li Li',
    rows !! i = Some row ∧ process_day df harvest_day row Li = (row', Li', None).
Proof.
  revert L0 rows' i. induction rows as [|r rows IH]; intros L0 rows' i; simpl.
  - by intros [= <- _].
  - destruct (process_day df harvest_day r L0) as [[r' L1] [e1|]] eqn:Hday; [done|].
    destruct (run_days df harvest_day rows L1) as [[rest L2] e2] eqn:Hrun.
    intros [= <- <- ->] Hrow. destruct i as [|i]; simpl in Hrow.
    + inversion Hrow; subst row'. by exists r, L0, L1.
    + destruct (IH _ _ _ Hrun Hrow) as (row & Li & Li' & ? & ?).
      by exists row, Li, Li'.
Qed.

Lemma dose_ten_insects (rating : Qc) :
  (base_rate * (rating * Qc_of_Z 10))%Qc = (Qc_of_Z 64 * rating)%Qc.
Proof.
  rewrite (Qcmult_comm rating), Qcmult_assoc.
  by replace (base_rate * Qc_of_Z 10)%Qc with (Qc_of_Z 64) by (by apply Qc_is_canon).
Qed.

(** What a completed day loop leaves in the row of day [1 + i]. *)
Lemma completed_row temperature precipitation harvest_day df slf rows L (i : nat) row' :
  slf_population_model temperature precipitation 10 1 183 = Some slf →
  run_days df harvest_day
    (initial_rows 1 temperature precipitation (nymph_count slf) (adult_count slf))
    (initial_ledger df) = (rows, L, None) →
  rows !! i = Some row' →
  let d := 1 + Z.of_nat i in
  row_day row' = d
  ∧ (d <= 92 ∨ 120 <= d →
     ∃ p q Li,
       p ∈ df ∧ first_row_named (Product p) df = Some q
       ∧ qualifies (is_autumn_on d) d harvest_day Li p = true
       ∧ row_pesticide row' = Some (Product p)
       ∧ row_application_rate row'
         = (Qc_of_Z 64 * relevant_rating (is_autumn_on d) q)%Qc)
  ∧ (93 <= d <= 119 → row_pesticide row' = None ∧ row_application_rate row' = 0%Qc).
Proof.
  intros Hslf Hrun Hrow' d.
  destruct (run_days_row_inv _ _ _ _ _ _ _ _ Hrun Hrow') as (row & Li & Li' & Hrow & Hday).
  destruct (default_rows _ _ _ _ _ Hslf Hrow) as (t & p0 & Hrow0).
  fold d in Hrow0.
  pose proof (treatment_required_default d t p0) as Hreq. rewrite <- Hrow0 in Hreq.
  assert (Hd : row_day row = d) by (by rewrite Hrow0).
  destruct (process_day_cases _ _ _ _ _ _ _ Hday)
    as [(Hno & -> & _)|[(_ & _ & _ & _ & ?)|(Hyes & pre & p & post & q & Hdf & _ & Hp & Hq & -> & _)]];
    [|done|]; rewrite Hd in *.
  - split; [done|]. split.
    + intros Hdays. apply Hreq in Hdays. congruence.
    + intros _. by rewrite Hrow0.
  - split; [done|]. split.
    + intros _. exists p, q, Li. split_and!; [by eapply elem_of_middle|done..|].
      simpl. rewrite <- dose_ten_insects. unfold dose. do 3 f_equal.
      apply Hreq in Hyes. rewrite Hrow0. unfold relevant_count, is_autumn_on; simpl.
      destruct (decide (d <= 92)).
      * rewrite bool_decide_eq_true_2 by done. simpl. by rewrite decide_True by lia.
      * rewrite bool_decide_eq_false_2 by done. simpl. by rewrite decide_False by lia.
    + intros Hmid. apply Hreq in Hyes. lia.
Qed.

Lemma qualifies_rating is_autumn day harvest_day L p :
  qualifies is_autumn day harvest_day L p = true →
  (Qc_frac 3 4 <= relevant_rating is_autumn p)%Qc
  ∧ (Qc_of_Z day <= Qc_of_Z harvest_day - PHI p)%Qc.
Proof.
  destruct is_autumn.
  - unfold qualifies. rewrite passes_gate_autumn, andb_true_iff, !bool_decide_eq_true.
    unfold before_harvest_window. rewrite bool_decide_eq_true. done.
  - intros (H1 & _ & _ & _ & H5)%qualifies_summer. done.
Qed.

(** X11.  A schedule is returned only if some product of the table rated at
    least 0.75 on adults can still be applied on the last day of the season:
    day 183 always requires treatment, so a call with
    [harvest_day - PHI < 183] for every such product raises. *)
Theorem X11_completion_needs_product_for_day_183
    (temperature precipitation : list Qc) (harvest_day : Z) (df : list Pesticide)
    (sched : list ScheduleRow) :
  pesticide_application_strategy temperature precipitation harvest_day df = Ok sched →
  ∃ p, p ∈ df
       ∧ (Qc_frac 3 4 <= EffectOnAdults p)%Qc
       ∧ (Qc_of_Z 183 <= Qc_of_Z harvest_day - PHI p)%Qc.
Proof.
  intros Hok.
  destruct (strategy_success _ _ _ _ _ Hok)
    as (slf & rows & L & Hslf & Hp & Hn & Ha & Hrun & _).
  destruct (default_first_row _ _ _ Hslf) as (_ & _ & _ & _ & _ & _ & Hlen & _).
  assert (Hrl : length rows = 183%nat).
  { pose proof (run_days_days df harvest_day
                  (initial_rows 1 temperature precipitation
                     (nymph_count slf) (adult_count slf)) (initial_ledger df)) as H.
    rewrite Hrun in H. simpl in H. apply (f_equal length) in H.
    rewrite !length_fmap in H. rewrite H.
    rewrite <- (length_fmap row_day), initial_rows_days by lia.
    rewrite length_fmap, length_seq. lia. }
  destruct (lookup_lt_is_Some_2 rows 182) as [row' Hrow']; [lia|].
  destruct (completed_row _ _ _ _ _ _ _ _ _ Hslf Hrun Hrow') as (_ & Htreat & _).
  destruct Htreat as (p & q & Li & Hin & _ & Hq & _); [lia|].
  apply qualifies_rating in Hq as [H1 H2].
  exists p. split_and!; done.
Qed.

Lemma X11_completion_needs_product_for_day_183_witness :
  ∃ p, p ∈ [brigade 10000 200]
       ∧ (Qc_frac 3 4 <= EffectOnAdults p)%Qc
       ∧ (Qc_of_Z 183 <= Qc_of_Z 190 - PHI p)%Qc.
Proof.
  eapply (X11_completion_needs_product_for_day_183
            scenario_A_temperature scenario_A_precipitation 190 [brigade 10000 200]).
  vm_compute. reflexivity.
Defined.

Lemma filter_actionable_elem df harvest_day rows row :
  row ∈ filter_actionable df harvest_day rows →
  row ∈ rows
  ∧ ∃ m, max_PHI df = Some m ∧ (Qc_of_Z (row_day row) <= Qc_of_Z harvest_day - m)%Qc.
Proof.
  unfold filter_actionable. destruct (max_PHI df) as [m|]; [|by intros ?%elem_of_nil].
  intros [HP Hin]%list_elem_of_filter. split; [done|]. by exists m.
Qed.

Lemma Qc_of_Z_le (a b : Z) : a <= b → (Qc_of_Z a <= Qc_of_Z b)%Qc.
Proof. intros H. unfold Qcle. rewrite !Qc_of_Z_this. by rewrite <- Zle_Qle. Qed.

(** X12.  With unique product names, every row of a returned schedule is of
    one of two kinds, decided by its day alone.  On the days 1..92 and from
    day 120 on it records a product of the table rated at least 0.75 on the
    relevant stage, with the rate 64 x rating (at least 48), since the count
    of the relevant stage is always 10.  On the days 93..119 it records no
    product and the rate 0. *)
Theorem X12_returned_rows_by_day
    (temperature precipitation : list Qc) (harvest_day : Z) (df : list Pesticide)
    (sched : list ScheduleRow) (row : ScheduleRow) :
  NoDup (Product <$> df) →
  pesticide_application_strategy temperature precipitation harvest_day df = Ok sched →
  row ∈ sched →
  1 <= row_day row <= 183
  ∧ (row_day row <= 92 ∨ 120 <= row_day row →
     ∃ p, p ∈ df
          ∧ row_pesticide row = Some (Product p)
          ∧ (Qc_frac 3 4 <= relevant_rating (is_autumn_on (row_day row)) p)%Qc
          ∧ row_application_rate row
            = (Qc_of_Z 64 * relevant_rating (is_autumn_on (row_day row)) p)%Qc
          ∧ (Qc_of_Z 48 <= row_application_rate row)%Qc)
  ∧ (93 <= row_day row <= 119 →
     row_pesticide row = None ∧ row_application_rate row = 0%Qc).
Proof.
  intros Hnd Hok Hin.
  destruct (strategy_success _ _ _ _ _ Hok)
    as (slf & rows & L & Hslf & Hp & Hn & Ha & Hrun & ->).
  apply filter_actionable_elem in Hin as [Hin _].
  apply list_elem_of_lookup in Hin as [i Hrow].
  destruct (default_first_row _ _ _ Hslf) as (_ & _ & _ & _ & _ & _ & Hlen & _).
  assert (Hi : (i < 183)%nat).
  { apply lookup_lt_Some in Hrow.
    pose proof (run_days_days df harvest_day
                  (initial_rows 1 temperature precipitation
                     (nymph_count slf) (adult_count slf)) (initial_ledger df)) as H.
    rewrite Hrun in H. simpl in H. apply (f_equal length) in H.
    rewrite !length_fmap in H. rewrite H in Hrow.
    rewrite <- (length_fmap row_day), initial_rows_days in Hrow by lia.
    rewrite length_fmap, length_seq in Hrow. lia. }
  destruct (completed_row _ _ _ _ _ _ _ _ _ Hslf Hrun Hrow) as (Hd & Htreat & Hmid).
  rewrite Hd. split_and!; [lia..| |done].
  intros Hdays. destruct (Htreat Hdays) as (p & q & Li & Hpin & Hq & Hqual & Hname & Hrate).
  unfold first_row_named in Hq. rewrite head_filter_Product in Hq by done.
  inversion Hq; subst q.
  apply qualifies_rating in Hqual as [Hrating _].
  exists p. split_and!; [done..|].
  rewrite Hrate.
  replace (Qc_of_Z 48) with (Qc_of_Z 64 * Qc_frac 3 4)%Qc by (by apply Qc_is_canon).
  by apply Qcmult_le_mono_nonneg_l.
Qed.

Lemma X12_returned_rows_by_day_witness :
  ∃ sched row,
    pesticide_application_strategy scenario_A_temperature scenario_A_precipitation 190
      [brigade 10000 200; danitol] = Ok sched
    ∧ sched !! 119%nat = Some row
    ∧ row_day row = 120
    ∧ (93 <= row_day row <= 119 →
       row_pesticide row = None ∧ row_application_rate row = 0%Qc)
    ∧ (row_day row <= 92 ∨ 120 <= row_day row →
       ∃ p, p ∈ [brigade 10000 200; danitol]
            ∧ row_pesticide row = Some (Product p)
            ∧ (Qc_frac 3 4 <= relevant_rating (is_autumn_on (row_day row)) p)%Qc
            ∧ row_application_rate row
              = (Qc_of_Z 64 * relevant_rating (is_autumn_on (row_day row)) p)%Qc
            ∧ (Qc_of_Z 48 <= row_application_rate row)%Qc).
Proof.
  eexists _, _.
  split; [vm_compute; reflexivity|].
  split; [vm_compute; reflexivity|].
  split; [reflexivity|].
  eapply and_comm, proj2.
  eapply (X12_returned_rows_by_day
            scenario_A_temperature scenario_A_precipitation 190 [brigade 10000 200; danitol]).
  - apply NoDup_cons. split; [by intros ?%list_elem_of_singleton|apply NoDup_singleton].
  - vm_compute. reflexivity.
  - eapply list_elem_of_lookup_2 with (i := 119%nat). vm_compute. reflexivity.
Defined.

(** ** Scheduler and evaluator together *)

(** X13.  The evaluator cannot be run on what the scheduler returns: every
    non-empty schedule returned (unique product names) contains the row of
    day 1 with a positive rate, and the frame has no 'harvest_day' column, so
    [calculate_profit] raises [KeyError] for all economic parameters. *)
Theorem X13_profit_of_returned_schedule_raises
    (temperature precipitation : list Qc) (harvest_day : Z) (df : list Pesticide)
    (sched : list ScheduleRow)
    (vineyard_length depth pesticide_cost base_yield price_per_grape
       mold_growth_rate harvest_penalty_rate : Qc) :
  NoDup (Product <$> df) →
  pesticide_application_strategy temperature precipitation harvest_day df = Ok sched →
  sched ≠ [] →
  calculate_profit vineyard_length depth (mkFrame sched None) pesticide_cost base_yield
    price_per_grape mold_growth_rate harvest_penalty_rate
  = Raise (KeyError "harvest_day").
Proof.
  intros Hnd Hok Hne.
  destruct (strategy_success _ _ _ _ _ Hok)
    as (slf & processed & L & Hslf & Hp & Hn & Ha & Hrun & Hsched).
  destruct sched as [|r0 sched']; [done|]. clear Hne.
  assert (Hr0 : r0 ∈ filter_actionable df harvest_day processed)
    by (rewrite <- Hsched; apply elem_of_cons; by left).
  destruct (filter_actionable_elem _ _ _ _ Hr0) as (Hr0in & m & Hm & Hbound).
  apply list_elem_of_lookup in Hr0in as [i Hr0i].
  destruct (completed_row _ _ _ _ _ _ _ _ _ Hslf Hrun Hr0i) as (Hd0 & _ & _).
  (* the row of day 1 passes the final filter as well *)
  destruct (lookup_lt_is_Some_2 processed 0) as [r1 Hr1]; [apply lookup_lt_Some in Hr0i; lia|].
  destruct (completed_row _ _ _ _ _ _ _ _ _ Hslf Hrun Hr1) as (Hd1 & Htreat & _).
  simpl in Hd1.
  assert (Hin1 : r1 ∈ r0 :: sched').
  { rewrite Hsched. unfold filter_actionable. rewrite Hm.
    apply list_elem_of_filter. split; [|by eapply list_elem_of_lookup_2].
    eapply Qcle_trans; [|exact Hbound]. apply Qc_of_Z_le. lia. }
  destruct Htreat as (p & q & Li & Hpin & Hq & Hqual & _ & Hrate); [lia|].
  apply qualifies_rating in Hqual as [Hrating _].
  unfold first_row_named in Hq. rewrite head_filter_Product in Hq by done.
  inversion Hq; subst q.
  assert (Hpos : (0 < row_application_rate r1)%Qc).
  { rewrite Hrate. apply Qcmult_pos_pos; [done|].
    eapply Qclt_le_trans; [|exact Hrating]. done. }
  unfold calculate_profit. cbn [rows].
  rewrite (profit_loop_raises (mkFrame (r0 :: sched') None) pesticide_cost
             (vineyard_length * Qc_of_Z 4 * depth)%Qc mold_growth_rate (r0 :: sched')
             (mkTotals 0%Qc 0%Qc 0%Qc)); [done|].
  by exists r1.
Qed.

Lemma X13_profit_of_returned_schedule_raises_witness :
  ∃ sched,
    pesticide_application_strategy scenario_A_temperature scenario_A_precipitation 190
      [brigade 10000 200] = Ok sched
    ∧ length sched = 183%nat
    ∧ calculate_profit (Qc_of_Z 100) (Qc_of_Z 20) (mkFrame sched None) 1%Qc (Qc_of_Z 1000)
        1%Qc 0%Qc 0%Qc
      = Raise (KeyError "harvest_day").
Proof.
  eexists. split; [vm_compute; reflexivity|]. split; [reflexivity|].
  eapply (X13_profit_of_returned_schedule_raises
            scenario_A_temperature scenario_A_precipitation 190 [brigade 10000 200]).
  - apply NoDup_singleton.
  - vm_compute. reflexivity.
  - discriminate.
Defined.

(** ** Scheduler: ledger and schedule agree *)

Lemma initial_usage_zero (df : list Pesticide) (name : string) :
  seasonal_usage (initial_ledger df) !!! name = 0%Qc.
Proof.
  unfold initial_ledger; simpl. induction df as [|c df IH]; simpl.
  - rewrite lookup_total_empty. reflexivity.
  - destruct (decide (Product c = name)) as [->|Hne].
    + by rewrite lookup_total_insert_eq.
    + by rewrite lookup_total_insert_ne.
Qed.

(** The total lookup [!!!] of a missing key is 0 for volumes but 1 for
    counts (the default inhabitant of [Z]); the facts about counts are
    therefore stated for the products of the table, which are keys. *)
Lemma initial_count_zero (df : list Pesticide) (p : Pesticide) :
  p ∈ df → seasonal_use_count (initial_ledger df) !!! Product p = 0.
Proof.
  unfold initial_ledger; simpl. induction df as [|c df IH]; simpl; intros Hin.
  - by apply elem_of_nil in Hin.
  - destruct (decide (Product c = Product p)) as [->|Hne].
    + by rewrite lookup_total_insert_eq.
    + rewrite lookup_total_insert_ne by done.
      apply elem_of_cons in Hin as [->|Hin]; [done | by apply IH].
Qed.

Lemma first_row_named_Some (df : list Pesticide) (name : string) (q : Pesticide) :
  first_row_named name df = Some q → q ∈ df ∧ Product q = name.
Proof.
  unfold first_row_named. intros Hq.
  assert (Hin : q ∈ filter (λ x, Product x = name) df).
  { destruct (filter _ df) as [|y l]; [done|]. simpl in Hq. inversion Hq; subst.
    apply elem_of_cons. by left. }
  apply list_elem_of_filter in Hin as [? ?]. done.
Qed.

Lemma initial_rows_unnamed d ts ps ns as_ :
  Forall (λ r, row_pesticide r = None) (initial_rows d ts ps ns as_).
Proof.
  apply Forall_lookup. intros i row Hrow.
  by destruct (initial_rows_lookup _ _ _ _ _ _ _ Hrow) as (t & p & n & a & _ & _ & _ & _ & ->).
Qed.

Lemma run_days_ledger_matches df harvest_day rows L0 rows' L (name : string) :
  Forall (λ r, row_pesticide r = None) rows →
  run_days df harvest_day rows L0 = (rows', L, None) →
  seasonal_usage L !!! name = (seasonal_usage L0 !!! name + applied_volume name rows')%Qc
  ∧ seasonal_use_count L !!! name = seasonal_use_count L0 !!! name + applied_count name rows'.
Proof.
  revert L0 rows' L. induction rows as [|r rows IH]; intros L0 rows' L Hnone; simpl.
  - intros [= <- <-]. unfold applied_volume, applied_count; simpl.
    split; [by rewrite Qcplus_0_r | lia].
  - apply Forall_cons in Hnone as [Hr Hnone].
    destruct (process_day df harvest_day r L0) as [[r' L1] [e1|]] eqn:Hday; [done|].
    destruct (run_days df harvest_day rows L1) as [[rest L2] e2] eqn:Hrun.
    intros [= <- <- ->].
    destruct (IH _ _ _ Hnone Hrun) as [IHu IHc]. rewrite IHu, IHc.
    unfold applied_volume, applied_count. rewrite filter_cons. simpl foldr.
    fold (applied_volume name rest).
    destruct (process_day_cases _ _ _ _ _ _ _ Hday)
      as [(_ & -> & -> & _)|[(_ & _ & _ & _ & ?)|(_ & pre & p & post & q & _ & _ & _ & _ & -> & -> & _)]];
      [|done|].
    + rewrite Hr. rewrite !decide_False by done. done.
    + unfold record_application; simpl.
      destruct (decide (Product p = name)) as [->|Hne].
      * rewrite !lookup_total_insert_eq, !decide_True by done. simpl length.
        split; [ring | lia].
      * rewrite !lookup_total_insert_ne by done.
        rewrite !decide_False by (intros [= ?]; done). done.
Qed.

(** X14.  When the day loop completes, the ledger agrees with the schedule:
    for every product of the table, the cumulative volume in the ledger is
    the sum of the rates of the rows recording its name, and the application
    count is the number of those rows. *)
Theorem X14_ledger_agrees_with_schedule
    (temperature precipitation : list Qc) (harvest_day : Z) (df : list Pesticide)
    (rows : list ScheduleRow) (L : Ledger) (p : Pesticide) :
  strategy_loop temperature precipitation harvest_day df = Ok (rows, L, None) →
  p ∈ df →
  seasonal_usage L !!! Product p = applied_volume (Product p) rows
  ∧ seasonal_use_count L !!! Product p = applied_count (Product p) rows.
Proof.
  unfold strategy_loop.
  destruct (slf_population_model _ _ _ _ _) as [slf|]; [|done].
  case_bool_decide; [|done]. intros [= Hrun] Hin.
  destruct (run_days_ledger_matches _ _ _ _ _ _ (Product p)
              (initial_rows_unnamed _ _ _ _ _) Hrun) as [Hu Hc].
  rewrite Hu, Hc, initial_usage_zero, initial_count_zero by done.
  split; [by rewrite Qcplus_0_l | lia].
Qed.

Lemma X14_ledger_agrees_with_schedule_witness :
  ∃ rows L,
    strategy_loop scenario_A_temperature scenario_A_precipitation 190 [brigade 10000 200]
      = Ok (rows, L, None)
    ∧ applied_count "Brigade" rows = 156
    ∧ seasonal_usage L !!! "Brigade" = applied_volume "Brigade" rows
    ∧ seasonal_use_count L !!! "Brigade" = applied_count "Brigade" rows.
Proof.
  eexists _, _. split; [vm_compute; reflexivity|]. split; [by vm_compute|].
  eapply (X14_ledger_agrees_with_schedule
            scenario_A_temperature scenario_A_precipitation 190 [brigade 10000 200]
            _ _ (brigade 10000 200)).
  - vm_compute. reflexivity.
  - apply list_elem_of_singleton. reflexivity.
Defined.

(** ** Scheduler: the seasonal cap on completion *)

Lemma run_days_cap_invariant df harvest_day rows L0 rows' L :
  (∀ name q, first_row_named name df = Some q →
     seasonal_use_count L0 !!! name = 0
     ∨ (seasonal_usage L0 !!! name <= SeasonalMax q)%Qc) →
  run_days df harvest_day rows L0 = (rows', L, None) →
  ∀ name q, first_row_named name df = Some q →
    seasonal_use_count L !!! name = 0 ∨ (seasonal_usage L !!! name <= SeasonalMax q)%Qc.
Proof.
  revert L0 rows' L. induction rows as [|r rows IH]; intros L0 rows' L HI; simpl.
  - by intros [= _ <-].
  - destruct (process_day df harvest_day r L0) as [[r' L1] [e1|]] eqn:Hday; [done|].
    destruct (run_days df harvest_day rows L1) as [[rest L2] e2] eqn:Hrun.
    intros [= _ <- ->]. eapply IH; [|exact Hrun].
    destruct (process_day_cases _ _ _ _ _ _ _ Hday)
      as [(_ & _ & -> & _)|[(_ & _ & _ & _ & ?)|(_ & pre & p & post & q & _ & _ & _ & Hq & _ & -> & He)]];
      [done|done|].
    intros name q' Hq'. unfold record_application; simpl.
    destruct (decide (Product p = name)) as [<-|Hne].
    + right. rewrite lookup_total_insert_eq.
      rewrite Hq in Hq'. inversion Hq'; subst q'.
      case_bool_decide as Hcap; [done|]. by apply Qcnot_lt_le.
    + rewrite !lookup_total_insert_ne by done. by apply HI.
Qed.

(** X15.  A completed day loop never leaves a product above its seasonal
    maximum: with unique product names, every product applied at least once
    has a cumulative volume not exceeding its 'Seasonal Max'. *)
Theorem X15_completed_run_respects_seasonal_cap
    (temperature precipitation : list Qc) (harvest_day : Z) (df : list Pesticide)
    (rows : list ScheduleRow) (L : Ledger) (p : Pesticide) :
  NoDup (Product <$> df) →
  strategy_loop temperature precipitation harvest_day df = Ok (rows, L, None) →
  p ∈ df →
  seasonal_use_count L !!! Product p ≠ 0 →
  (seasonal_usage L !!! Product p <= SeasonalMax p)%Qc.
Proof.
  intros Hnd Hloop Hin Hused. revert Hloop. unfold strategy_loop.
  destruct (slf_population_model _ _ _ _ _) as [slf|]; [|done].
  case_bool_decide; [|done]. intros [= Hrun].
  destruct (run_days_cap_invariant _ _ _ _ _ _
              ltac:(intros name q [Hq <-]%first_row_named_Some; left;
                    by apply initial_count_zero) Hrun
              (Product p) p) as [H0|Hle]; [|done|done].
  unfold first_row_named. by apply head_filter_Product.
Qed.

Lemma X15_completed_run_respects_seasonal_cap_witness :
  ∃ L : Ledger,
    seasonal_use_count L !!! Product (brigade 10000 200) = 156
    ∧ (seasonal_usage L !!! Product (brigade 10000 200) <= SeasonalMax (brigade 10000 200))%Qc.
Proof.
  eexists. split; [|
    eapply (X15_completed_run_respects_seasonal_cap
              scenario_A_temperature scenario_A_precipitation 190 [brigade 10000 200]);
    [apply NoDup_singleton | vm_compute; reflexivity
    | apply list_elem_of_singleton; reflexivity | by vm_compute]].
  by vm_compute.
Defined.

(** ** Scheduler: rejected inputs *)

(** X16.  The scheduler accepts only series of exactly 183 entries: when
    the temperature or the precipitation series is shorter, the population
    model, called for the days 1..183, raises [IndexError]; when both have at
    least 183 entries but not both exactly 183, building the schedule frame
    raises [ValueError]; in both cases before any product is examined. *)
Theorem X16_series_must_have_183_entries
    (temperature precipitation : list Qc) (harvest_day : Z) (df : list Pesticide) :
  ((length temperature < 183 ∨ length precipitation < 183)%nat →
   pesticide_application_strategy temperature precipitation harvest_day df
   = Raise IndexError)
  ∧ ((183 <= length temperature)%nat → (183 <= length precipitation)%nat →
     ¬ (length temperature = 183 ∧ length precipitation = 183)%nat →
     pesticide_application_strategy temperature precipitation harvest_day df
     = Raise ValueError_length).
Proof.
  unfold pesticide_application_strategy, strategy_loop.
  unfold default_initial_eggs, default_start_day, default_end_day.
  split.
  - intros Hshort.
    destruct (slf_population_model temperature precipitation 10 1 183) as [slf|] eqn:Hslf;
      [|done].
    destruct (slf_population_model_cells _ _ _ _ _ _ Hslf) as (cells & Hloop & _).
    apply model_loop_Some_lengths in Hloop.
    change (Z.to_nat (183 + 1 - 1)) with 183%nat in Hloop. lia.
  - intros HT HP Hne.
    destruct (model_loop_total 10 183 1 temperature precipitation (0, 0) HT HP)
      as [cells Hloop].
    pose proof (model_loop_length _ _ _ _ _ _ _ Hloop) as Hlen.
    unfold slf_population_model. rewrite length_arange.
    change (Z.to_nat (183 + 1 - 1)) with 183%nat. rewrite Hloop. simpl.
    rewrite bool_decide_eq_false_2; [done|].
    rewrite !length_fmap, Hlen. lia.
Qed.

Lemma X16_series_must_have_183_entries_witness :
  pesticide_application_strategy (replicate 182 (Qc_of_Z 25)) (replicate 183 (Qc_of_Z 5))
    190 [brigade 10000 200] = Raise IndexError
  ∧ pesticide_application_strategy (replicate 184 (Qc_of_Z 25)) (replicate 183 (Qc_of_Z 5))
      190 [brigade 10000 200] = Raise ValueError_length.
Proof.
  split.
  - apply (X16_series_must_have_183_entries
             (replicate 182 (Qc_of_Z 25)) (replicate 183 (Qc_of_Z 5)) 190 [brigade 10000 200]).
    left. rewrite length_replicate. lia.
  - apply (X16_series_must_have_183_entries
             (replicate 184 (Qc_of_Z 25)) (replicate 183 (Qc_of_Z 5)) 190 [brigade 10000 200]);
      rewrite ?length_replicate; lia.
Defined.

(** X17.  With an empty product table every call on well-sized series
    raises the no-suitable-pesticide error for day 1: day 1 always requires
    treatment and the product loop has nothing to try. *)
Theorem X17_empty_table_aborts_on_day_1
    (temperature precipitation : list Qc) (harvest_day : Z) :
  length temperature = 183%nat → length precipitation = 183%nat →
  pesticide_application_strategy temperature precipitation harvest_day []
  = Raise (ValueError_NoSuitable 1).
Proof.
  intros HT HP.
  destruct (slf_population_model_default_total temperature precipitation HT HP)
    as [slf Hslf].
  destruct (default_first_row _ _ _ Hslf) as (t & p & ts & ps & ns & as_ & Hlen & Hrows).
  destruct (slf_population_model_cells _ _ _ _ _ _ Hslf) as (cells & Hloop & _ & Hn & Ha).
  pose proof (model_loop_length _ _ _ _ _ _ _ Hloop) as Hcl.
  change (Z.to_nat (183 + 1 - 1)) with 183%nat in Hcl.
  unfold pesticide_application_strategy, strategy_loop.
  unfold default_initial_eggs, default_start_day, default_end_day.
  rewrite Hslf, bool_decide_eq_true_2
    by (by rewrite Hn, Ha, !length_fmap, Hcl, HT, HP).
  rewrite Hrows. reflexivity.
Qed.

Lemma X17_empty_table_aborts_on_day_1_witness :
  pesticide_application_strategy scenario_A_temperature scenario_A_precipitation 190 []
  = Raise (ValueError_NoSuitable 1).
Proof.
  apply (X17_empty_table_aborts_on_day_1
           scenario_A_temperature scenario_A_precipitation 190); reflexivity.
Defined.

(** ** Scheduler: autumn days *)

Lemma qualifies_autumn (day harvest_day : Z) (L : Ledger) (p : Pesticide) :
  qualifies true day harvest_day L p = true
  ↔ (Qc_frac 3 4 <= EffectOnAdults p)%Qc
    ∧ (Qc_of_Z day <= Qc_of_Z harvest_day - PHI p)%Qc.
Proof.
  unfold qualifies. rewrite passes_gate_autumn, andb_true_iff.
  unfold before_harvest_window. by rewrite !bool_decide_eq_true.
Qed.

Lemma qualifies_autumn_any_ledger day harvest_day L L' p :
  qualifies true day harvest_day L p = qualifies true day harvest_day L' p.
Proof. unfold qualifies. by rewrite !passes_gate_autumn. Qed.

(** X18.  On an autumn day (day > 92) that requires treatment the choice of
    product does not consult the ledger: the product applied is the first in
    table order rated at least 0.75 on adults whose pre-harvest interval
    still fits before harvest, whatever the rotation state, cumulative
    volume and application count; if the table has no such product the day
    raises the no-suitable-pesticide error for every ledger. *)
Theorem X18_autumn_choice_ignores_ledger
    (df : list Pesticide) (harvest_day : Z) (row : ScheduleRow) :
  92 < row_day row →
  treatment_required (is_autumn_on (row_day row)) row = true →
  (∃ pre p post,
      df = pre ++ p :: post
      ∧ (Qc_frac 3 4 <= EffectOnAdults p)%Qc
      ∧ (Qc_of_Z (row_day row) <= Qc_of_Z harvest_day - PHI p)%Qc
      ∧ (∀ x, x ∈ pre →
           ¬ ((Qc_frac 3 4 <= EffectOnAdults x)%Qc
              ∧ (Qc_of_Z (row_day row) <= Qc_of_Z harvest_day - PHI x)%Qc))
      ∧ ∀ L, ∃ rate e,
          process_day df harvest_day row L
          = (row_set_application_rate (row_set_pesticide row (Product p)) rate,
             record_application L p (row_day row) rate, e)
          ∧ (e = None ∨ e = Some (ValueError_SeasonalMax (Product p))))
  ∨ ((∀ x, x ∈ df →
        ¬ ((Qc_frac 3 4 <= EffectOnAdults x)%Qc
           ∧ (Qc_of_Z (row_day row) <= Qc_of_Z harvest_day - PHI x)%Qc))
     ∧ ∀ L, ∃ row',
         process_day df harvest_day row L
         = (row', L, Some (ValueError_NoSuitable (row_day row)))).
Proof.
  intros Hautumn Hreq.
  assert (Ha : is_autumn_on (row_day row) = true).
  { unfold is_autumn_on. by rewrite bool_decide_eq_false_2 by lia. }
  rewrite Ha in Hreq.
  destruct (scan_products_spec df harvest_day true df row (initial_ledger df))
    as [(pre & p & post & Hdf & Hpre & Hp & _)|(Hall & _)].
  - left. exists pre, p, post.
    apply qualifies_autumn in Hp as Hp'. destruct Hp' as [H1 H2].
    split_and!; [done..| |].
    + intros x Hx Hq.
      apply (proj2 (qualifies_autumn (row_day row) harvest_day (initial_ledger df) x)) in Hq.
      rewrite Forall_forall in Hpre. by rewrite (Hpre x Hx) in Hq.
    + intros L.
      assert (Hin : p ∈ df) by (by eapply elem_of_middle).
      destruct (apply_product_shape df true (row_set_pesticide row (Product p)) L p Hin)
        as (rate & e & Happ & He).
      exists rate, (match e with Applied => None | Exhausted => None | Raised x => Some x end).
      rewrite (process_day_first_qualifying df harvest_day row L pre p post);
        rewrite ?Ha; [| done | done | | ].
      * rewrite Happ. destruct He as [-> | ->]; auto.
      * eapply Forall_impl; [exact Hpre|]. intros x Hx. simpl in Hx.
        by rewrite (qualifies_autumn_any_ledger _ _ L (initial_ledger df)).
      * by rewrite (qualifies_autumn_any_ledger _ _ L (initial_ledger df)).
  - right. split.
    + intros x Hx Hq.
      apply (proj2 (qualifies_autumn (row_day row) harvest_day (initial_ledger df) x)) in Hq.
      rewrite Forall_forall in Hall. by rewrite (Hall x Hx) in Hq.
    + intros L.
      destruct (process_day_none_qualifying df harvest_day row L) as (row' & Hr & _).
      * by rewrite Ha.
      * rewrite Ha. eapply Forall_impl; [exact Hall|]. intros x Hx. simpl in Hx.
        by rewrite (qualifies_autumn_any_ledger _ _ L (initial_ledger df)).
      * by exists row'.
Qed.

Lemma X18_autumn_choice_ignores_ledger_witness :
  let df := [danitol; brigade 10000 92] in
  let row := mkScheduleRow 175 (Qc_of_Z 25) (Qc_of_Z 5) 0 10 None 0%Qc in
  (∃ pre p post,
      df = pre ++ p :: post
      ∧ (Qc_frac 3 4 <= EffectOnAdults p)%Qc
      ∧ (Qc_of_Z (row_day row) <= Qc_of_Z 183 - PHI p)%Qc
      ∧ (∀ x, x ∈ pre →
           ¬ ((Qc_frac 3 4 <= EffectOnAdults x)%Qc
              ∧ (Qc_of_Z (row_day row) <= Qc_of_Z 183 - PHI x)%Qc))
      ∧ ∀ L, ∃ rate e,
          process_day df 183 row L
          = (row_set_application_rate (row_set_pesticide row (Product p)) rate,
             record_application L p (row_day row) rate, e)
          ∧ (e = None ∨ e = Some (ValueError_SeasonalMax (Product p))))
  ∨ ((∀ x, x ∈ df →
        ¬ ((Qc_frac 3 4 <= EffectOnAdults x)%Qc
           ∧ (Qc_of_Z (row_day row) <= Qc_of_Z 183 - PHI x)%Qc))
     ∧ ∀ L, ∃ row',
         process_day df 183 row L
         = (row', L, Some (ValueError_NoSuitable (row_day row)))).
Proof.
  apply (X18_autumn_choice_ignores_ledger [danitol; brigade 10000 92] 183
           (mkScheduleRow 175 (Qc_of_Z 25) (Qc_of_Z 5) 0 10 None 0%Qc)).
  - simpl. lia.
  - vm_compute. reflexivity.
Defined.

(** ** Outcome evaluator: frames without applications *)

Lemma Qc_of_Z_add (a b : Z) : Qc_of_Z (a + b) = (Qc_of_Z a + Qc_of_Z b)%Qc.
Proof.
  apply Qc_is_canon. unfold Qcplus, Q2Qc. simpl this.
  rewrite Qred_correct, inject_Z_plus. reflexivity.
Qed.

Lemma mold_impact_sum (mold_growth_rate acc : Qc) (todo : list ScheduleRow) :
  foldl (λ m r, (m + mold_growth_rate
                     * (Qc_of_Z (row_nymph_count r) + Qc_of_Z (row_adult_count r)))%Qc)
        acc todo
  = (acc + mold_growth_rate * Qc_of_Z (population_sum todo))%Qc.
Proof.
  revert acc. induction todo as [|r todo IH]; intros acc.
  - change (acc = (acc + mold_growth_rate * Qc_of_Z 0)%Qc). rewrite Z2Qc_inj_0. ring.
  - cbn [foldl population_sum foldr]. rewrite IH. fold (population_sum todo).
    rewrite !Qc_of_Z_add. ring.
Qed.

Lemma pesticide_cost_sum (c acc : Qc) (todo : list ScheduleRow) :
  foldl (λ a r, if truthy (row_pesticide r) then (a + c)%Qc else a) acc todo
  = (acc + c * Qc_of_Z (named_rows todo))%Qc.
Proof.
  unfold named_rows. revert acc. induction todo as [|r todo IH]; intros acc.
  - change (acc = (acc + c * Qc_of_Z 0)%Qc). rewrite Z2Qc_inj_0. ring.
  - cbn [foldl]. rewrite IH, filter_cons. destruct (truthy (row_pesticide r)) eqn:Ht.
    + rewrite decide_True by done. simpl length.
      rewrite Nat2Z.inj_succ, <- Z.add_1_l, Qc_of_Z_add.
      rewrite Z2Qc_inj_1. ring.
    + rewrite decide_False by (by intros ?). done.
Qed.

(** X19.  On a frame in which no row has a positive application rate the
    evaluator returns
    [max(0, base_yield - mold_growth_rate * (sum of all counts)) * price
     - pesticide_cost * (4 * vineyard_length * depth) * (rows with a non-empty
     'pesticide' cell)]:
    the cost is charged per named row even though nothing was applied, the
    harvest penalty and [harvest_penalty_rate] play no part, and the yield is
    floored at 0 before the cost is subtracted, so the profit can be
    negative. *)
Theorem X19_profit_without_applications
    (vineyard_length depth : Qc) (df : Frame)
    (pesticide_cost base_yield price_per_grape mold_growth_rate harvest_penalty_rate : Qc) :
  Forall (λ row, ¬ (0 < row_application_rate row)%Qc) (rows df) →
  calculate_profit vineyard_length depth df pesticide_cost base_yield price_per_grape
    mold_growth_rate harvest_penalty_rate
  = Ok (Qcmax 0 (base_yield - mold_growth_rate * Qc_of_Z (population_sum (rows df)))
        * price_per_grape
        - pesticide_cost * (vineyard_length * Qc_of_Z 4 * depth)
          * Qc_of_Z (named_rows (rows df)))%Qc.
Proof.
  intros Hall.
  rewrite calculate_profit_without_application by done.
  unfold mold_impact, pesticide_cost_total.
  rewrite mold_impact_sum, pesticide_cost_sum, !Qcplus_0_l.
  by rewrite (right_id 0%Qc Qcminus).
Qed.

Lemma X19_profit_without_applications_witness :
  calculate_profit (Qc_of_Z 100) (Qc_of_Z 20)
    (mkFrame [mkScheduleRow 1 (Qc_of_Z 25) (Qc_of_Z 5) 10 0 (Some "Brigade") 0%Qc;
              mkScheduleRow 2 (Qc_of_Z 25) (Qc_of_Z 5) 10 0 None 0%Qc] None)
    (Qc_of_Z 3) (Qc_of_Z 1000) (Qc_of_Z 2) (Qc_of_Z 5) (Qc_of_Z 7)
  = Ok (Qcmax 0 (Qc_of_Z 1000 - Qc_of_Z 5 * Qc_of_Z 20) * Qc_of_Z 2
        - Qc_of_Z 3 * (Qc_of_Z 100 * Qc_of_Z 4 * Qc_of_Z 20) * Qc_of_Z 1)%Qc.
Proof.
  apply (X19_profit_without_applications (Qc_of_Z 100) (Qc_of_Z 20)
           (mkFrame [mkScheduleRow 1 (Qc_of_Z 25) (Qc_of_Z 5) 10 0 (Some "Brigade") 0%Qc;
                     mkScheduleRow 2 (Qc_of_Z 25) (Qc_of_Z 5) 10 0 None 0%Qc] None)
           (Qc_of_Z 3) (Qc_of_Z 1000) (Qc_of_Z 2) (Qc_of_Z 5) (Qc_of_Z 7)).
  repeat constructor; by vm_compute.
Defined.

(** ** Scheduler: the input columns of the returned rows *)

Lemma apply_product_inputs df is_autumn row L p :
  Row_inputs (apply_product df is_autumn row L p).1.1 = Row_inputs row.
Proof.
  unfold apply_product.
  destruct (loc_first eff_Product _ _ _); [|done].
  destruct (loc_first Product _ _ _); [|done].
  by case_bool_decide.
Qed.

Lemma scan_products_inputs df harvest_day is_autumn candidates row L :
  Row_inputs (scan_products df harvest_day is_autumn candidates row L).1.1 = Row_inputs row.
Proof.
  revert row. induction candidates as [|c cs IH]; intros row; [done|].
  simpl. destruct (passes_gate _ _ _ _); [|apply IH].
  destruct (before_harvest_window _ _ _).
  - by rewrite apply_product_inputs.
  - by rewrite IH.
Qed.

Lemma process_day_inputs df harvest_day row L :
  Row_inputs (process_day df harvest_day row L).1.1 = Row_inputs row.
Proof.
  unfold process_day. destruct (treatment_required _ _); [|done].
  pose proof (scan_products_inputs df harvest_day (is_autumn_on (row_day row)) df row L) as H.
  by destruct (scan_products _ _ _ _ _ _) as [[r L'] [| |e]].
Qed.

(** X20.  The scheduler never alters the input columns: every row of a
    returned schedule carries, for its day [d], the temperature and the
    precipitation at position [d - 1] of the input series, and the counts of
    the model called with its defaults (10 immature before day 120, 10
    mature from day 120 on). *)
Theorem X20_returned_rows_keep_inputs
    (temperature precipitation : list Qc) (harvest_day : Z) (df : list Pesticide)
    (sched : list ScheduleRow) (row : ScheduleRow) :
  pesticide_application_strategy temperature precipitation harvest_day df = Ok sched →
  row ∈ sched →
  1 <= row_day row
  ∧ temperature !! Z.to_nat (row_day row - 1) = Some (row_temperature row)
  ∧ precipitation !! Z.to_nat (row_day row - 1) = Some (row_precipitation row)
  ∧ row_nymph_count row = (if decide (row_day row < 120) then 10 else 0)
  ∧ row_adult_count row = (if decide (row_day row < 120) then 0 else 10).
Proof.
  intros Hok Hin.
  destruct (strategy_success _ _ _ _ _ Hok)
    as (slf & processed & L & Hslf & _ & _ & _ & Hrun & ->).
  apply filter_actionable_elem in Hin as [Hin _].
  apply list_elem_of_lookup in Hin as [i Hrow].
  destruct (run_days_row_inv _ _ _ _ _ _ _ _ Hrun Hrow) as (row0 & Li & Li' & Hrow0 & Hday).
  pose proof (process_day_inputs df harvest_day row0 Li) as Hin0.
  rewrite Hday in Hin0. simpl in Hin0.
  destruct (default_rows _ _ _ _ _ Hslf Hrow0) as (t & p & Hdef).
  destruct (initial_rows_lookup _ _ _ _ _ _ _ Hrow0) as (t' & p' & n & a & Ht & Hp & _ & _ & Hmk).
  rewrite Hmk in Hin0. unfold Row_inputs in Hin0; simpl in Hin0.
  rewrite Hmk in Hdef. inversion Hdef; subst t' p' n a.
  inversion Hin0 as [[Hd Htemp Hprec Hn Ha]].
  rewrite Hd, Htemp, Hprec, Hn, Ha.
  replace (Z.to_nat (1 + Z.of_nat i - 1)) with i by lia.
  split_and!; [lia | done..].
Qed.

Lemma X20_returned_rows_keep_inputs_witness :
  ∃ sched row,
    pesticide_application_strategy
      (replicate 100 (Qc_of_Z 25) ++ replicate 83 (Qc_of_Z 12))
      scenario_A_precipitation 190 [brigade 10000 200] = Ok sched
    ∧ sched !! 150%nat = Some row
    ∧ row_day row = 151
    ∧ (replicate 100 (Qc_of_Z 25) ++ replicate 83 (Qc_of_Z 12)) !! Z.to_nat (row_day row - 1)
      = Some (row_temperature row)
    ∧ row_adult_count row = (if decide (row_day row < 120) then 0 else 10).
Proof.
  eexists _, _.
  split; [vm_compute; reflexivity|].
  split; [vm_compute; reflexivity|].
  split; [reflexivity|].
  edestruct (X20_returned_rows_keep_inputs
               (replicate 100 (Qc_of_Z 25) ++ replicate 83 (Qc_of_Z 12))
               scenario_A_precipitation 190 [brigade 10000 200])
    as (_ & Ht & _ & _ & Ha).
  - vm_compute. reflexivity.
  - eapply list_elem_of_lookup_2 with (i := 150%nat). vm_compute. reflexivity.
  - split; [exact Ht | exact Ha].
Defined.
